(** * pyorient: the connection layer of [pyorient/orient.py]

    A shallow embedding of [OrientSocket] (the binary connection: handshake,
    exact-length reads, close) and of [OrientDB] (the facade and its message
    factory), with the properties of the transport and session layer stated
    over it.

    Python objects become records, attribute assignment becomes a record
    update, and a method [m(self, args)] becomes a function from the object
    before the call to an [outcome]: the value returned or the exception
    raised, each with the object after the call.  The operating system
    (the peer, [select], [recv], [send]) is scripted inside the socket
    handle, so every run of the code is a run of the model on some script. *)

From Stdlib Require Import ZArith Lia Strings.Byte.
From stdpp Require Import base list strings gmap pretty.
From Equations Require Import Equations.
From Equations.Prop Require Import Logic.

Local Open Scope Z_scope.
Local Set Warnings "-register-all".

Abbreviation bytes := (list Byte.byte).

(** ** Python values

    The values that cross the facade: arguments of the operations, constants
    of [pyorient.constants], decoded responses.  [PyStr] holds a text of
    ASCII characters, one character per element; [PyTuple] stands for a tuple
    or a list. *)
Inductive pyval : Type :=
| PyNone
| PyBool (b : bool)
| PyInt (z : Z)
| PyStr (s : string)
| PyBytes (b : bytes)
| PyTuple (items : list pyval).

(** ** Exceptions

    The classes imported from [pyorient.exceptions], and the built-in ones
    that the standard library raises under this code.  They are distinct
    classes; [PyOrientConnectionException] is what the transport raises for a
    lost connection, [PyOrientConnectionPoolException] what [connect]
    documents for an empty handshake. *)
Inductive exn : Type :=
| PyOrientConnectionException (msg : string)
| PyOrientConnectionPoolException (msg : string)
| PyOrientWrongProtocolVersionException (msg : string)
| PyOrientBadMethodCallException (msg : string)
| socket_error (msg : string)
| select_error (msg : string)
| ValueError (msg : string)
| AttributeError (msg : string)
| TypeError (msg : string).

(** The three kinds of the error taxonomy, by class. *)
Definition is_ConnectionError (e : exn) : bool :=
  match e with PyOrientConnectionException _ => true | _ => false end.

Definition is_ProtocolVersionError (e : exn) : bool :=
  match e with PyOrientWrongProtocolVersionException _ => true | _ => false end.

Definition is_UnknownOperationError (e : exn) : bool :=
  match e with PyOrientBadMethodCallException _ => true | _ => false end.

(** ** Outcomes

    [Return a s]: the call returned [a] and left the object as [s];
    [Raise e s]: it raised [e] and left the object as [s];
    [Hang]: the script of the environment ended while the code was still
    waiting, so the call never returns. *)
Inductive outcome (St A : Type) : Type :=
| Return (a : A) (s : St)
| Raise (e : exn) (s : St)
| Hang.
Arguments Return {St A} a s.
Arguments Raise {St A} e s.
Arguments Hang {St A}.

Definition final_state {St A} (o : outcome St A) : option St :=
  match o with
  | Return _ s | Raise _ s => Some s
  | Hang => None
  end.

(** ** The OS socket handle and its script *)

(** One answer of [select.select([sock], [], [sock], 30)]: the two lists it
    returns are empty or hold the socket, or the call raises
    [select.error]. *)
Inductive select_event : Type :=
| SelectReturns (ready_to_read in_error : bool)
| SelectRaises (msg : string).

(** One answer of [recv] / [recv_into]: the bytes the stream has for this
    call (none at all when the peer has closed), or [socket.error]. *)
Inductive recv_event : Type :=
| Data (bs : bytes)
| RecvRaises (msg : string).

(** One answer of [send]: how many bytes the OS takes, or [socket.error]. *)
Inductive send_event : Type :=
| SendAccepts (k : nat)
| SendRaises (msg : string).

Record socket : Type := mk_socket {
  sock_closed : bool;
  sock_timeout : option Z;
  sock_selects : list select_event;
  sock_recvs : list recv_event;
  sock_sends : list send_event;
  sock_out : bytes
}.

(** What a fresh socket meets when it connects: [peer_refuses] is the
    message of the [socket.error] raised by [connect], if any. *)
Record peer : Type := mk_peer {
  peer_refuses : option string;
  peer_selects : list select_event;
  peer_recvs : list recv_event;
  peer_sends : list send_event
}.

(** [socket.socket(socket.AF_INET, socket.SOCK_STREAM)] *)
Definition socket_new : socket :=
  mk_socket false None [] [] [] [].

Definition settimeout (t : Z) (sk : socket) : socket :=
  mk_socket (sock_closed sk) (Some t) (sock_selects sk) (sock_recvs sk)
            (sock_sends sk) (sock_out sk).

(** [sock.connect((host, port))] against peer [p]. *)
Definition socket_connect (p : peer) (sk : socket) : outcome socket unit :=
  match peer_refuses p with
  | Some msg => Raise (socket_error msg) sk
  | None =>
      Return tt (mk_socket (sock_closed sk) (sock_timeout sk) (peer_selects p)
                           (peer_recvs p) (peer_sends p) (sock_out sk))
  end.

(** [sock.close()]: never raises, also on a closed socket. *)
Definition socket_close (sk : socket) : socket :=
  mk_socket true (sock_timeout sk) (sock_selects sk) (sock_recvs sk)
            (sock_sends sk) (sock_out sk).

Definition with_recvs (evs : list recv_event) (sk : socket) : socket :=
  mk_socket (sock_closed sk) (sock_timeout sk) (sock_selects sk) evs
            (sock_sends sk) (sock_out sk).

Definition with_selects (evs : list select_event) (sk : socket) : socket :=
  mk_socket (sock_closed sk) (sock_timeout sk) evs (sock_recvs sk)
            (sock_sends sk) (sock_out sk).

(** [sock.recv(k)]: at most [k] bytes of what the stream has; what does not
    fit stays for the next call.  A closed handle and a stream with nothing
    more to give (the timeout expires) raise [socket.error]. *)
Definition socket_recv (k : nat) (sk : socket) : outcome socket bytes :=
  if sock_closed sk then Raise (socket_error "Bad file descriptor") sk
  else match sock_recvs sk with
       | [] => Raise (socket_error "timed out") sk
       | RecvRaises msg :: rest => Raise (socket_error msg) (with_recvs rest sk)
       | Data bs :: rest =>
           if (length bs <=? k)%nat then Return bs (with_recvs rest sk)
           else Return (take k bs) (with_recvs (Data (drop k bs) :: rest) sk)
       end.

(** [sock.send(buff)] *)
Definition socket_send (buff : bytes) (sk : socket) : outcome socket Z :=
  if sock_closed sk then Raise (socket_error "Bad file descriptor") sk
  else match sock_sends sk with
       | [] => Raise (socket_error "timed out") sk
       | SendRaises msg :: rest =>
           Raise (socket_error msg)
                 (mk_socket false (sock_timeout sk) (sock_selects sk)
                            (sock_recvs sk) rest (sock_out sk))
       | SendAccepts k :: rest =>
           let sent := take k buff in
           Return (Z.of_nat (length sent))
                  (mk_socket false (sock_timeout sk) (sock_selects sk)
                             (sock_recvs sk) rest (sock_out sk ++ sent))
       end.

(** [select.select([sock], [], [sock], 30)]: the pair (ready_to_read
    non-empty, in_error non-empty).  A closed handle has descriptor -1, which
    [select] rejects with [ValueError]. *)
Definition socket_select (sk : socket) : outcome socket (bool * bool) :=
  if sock_closed sk
  then Raise (ValueError "file descriptor cannot be a negative integer (-1)") sk
  else match sock_selects sk with
       | [] => Hang
       | SelectRaises msg :: rest => Raise (select_error msg) (with_selects rest sk)
       | SelectReturns r e :: rest => Return (r, e) (with_selects rest sk)
       end.

(** ** Constants of [pyorient.constants] *)

(** Modelled from the spec: [FIELD_SHORT['bytes']], the size of the handshake
    frame, is declared in [pyorient/constants.py]; the handshake "reads
    exactly 2 bytes". *)
Definition FIELD_SHORT_bytes : nat := 2.

(** Modelled from the spec: [SOCK_CONN_TIMEOUT], declared in
    [pyorient/constants.py]; "a connect/read timeout (30 seconds)". *)
Definition SOCK_CONN_TIMEOUT : Z := 30.

(** [struct.unpack('!h', v)[0]] on a 2-byte value: big-endian, signed. *)
Definition unpack_short (b0 b1 : Byte.byte) : Z :=
  let u := 256 * Z.of_N (Byte.to_N b0) + Z.of_N (Byte.to_N b1) in
  if 32768 <=? u then u - 65536 else u.

(** ** OrientSocket *)

Record OrientSocket : Type := mk_OrientSocket {
  connected : bool;
  host : string;
  port : Z;
  _socket : socket;
  protocol : Z;
  session_id : Z;
  auth_token : bytes;
  db_opened : option string;
  serialization_type : pyval;
  in_transaction : bool
}.

Definition set_connected (b : bool) (s : OrientSocket) : OrientSocket :=
  mk_OrientSocket b (host s) (port s) (_socket s) (protocol s) (session_id s)
    (auth_token s) (db_opened s) (serialization_type s) (in_transaction s).

Definition set_socket (sk : socket) (s : OrientSocket) : OrientSocket :=
  mk_OrientSocket (connected s) (host s) (port s) sk (protocol s)
    (session_id s) (auth_token s) (db_opened s) (serialization_type s)
    (in_transaction s).

Definition set_protocol (v : Z) (s : OrientSocket) : OrientSocket :=
  mk_OrientSocket (connected s) (host s) (port s) (_socket s) v
    (session_id s) (auth_token s) (db_opened s) (serialization_type s)
    (in_transaction s).

Definition set_auth_token (t : bytes) (s : OrientSocket) : OrientSocket :=
  mk_OrientSocket (connected s) (host s) (port s) (_socket s) (protocol s)
    (session_id s) t (db_opened s) (serialization_type s) (in_transaction s).

(** [recv_into(view, k)] where [view] is the window of [buf] that starts at
    [off]: the bytes received overwrite [buf[off : off + n_bytes]]. *)
Definition write_at (off : nat) (data buf : bytes) : bytes :=
  take off buf ++ data ++ drop (off + length data) buf.

Definition socket_recv_into (k : nat) (buf : bytes) (off : nat) (sk : socket)
  : outcome socket (nat * bytes) :=
  match socket_recv k sk with
  | Return data sk' => Return (length data, write_at off data buf) sk'
  | Raise e sk' => Raise e sk'
  | Hang => Hang
  end.

(** The inner loop of [read]:
[[
    while _len_to_read:
        n_bytes = self._socket.recv_into(view, _len_to_read)
        if not n_bytes:
            self._socket.close()
            raise PyOrientConnectionException("Server seems to have went down", [])
        view = view[n_bytes:]
        _len_to_read -= n_bytes
    return bytes(buf)
]]
    Every round that continues has received at least one byte, so the loop is
    well-founded on [_len_to_read]. *)
Equations? recv_loop (sk : socket) (buf : bytes) (off : nat) (_len_to_read : nat)
  : outcome socket bytes by wf _len_to_read lt :=
  recv_loop sk buf off 0%nat := Return buf sk;
  recv_loop sk buf off (S r) with socket_recv_into (S r) buf off sk := {
    | Raise e sk' := Raise e sk';
    | Hang := Hang;
    | Return (0%nat, _) sk' :=
        Raise (PyOrientConnectionException "Server seems to have went down")
              (socket_close sk');
    | Return (S m, buf') sk' := recv_loop sk' buf' (off + S m) (S r - S m) }.
Proof. lia. Defined.

Section OrientSocket.

(** [SUPPORTED_PROTOCOL] and [SERIALIZATION_DOCUMENT2CSV] are declared in
    [pyorient/constants.py]; the code is read for every value of them. *)
Variable SUPPORTED_PROTOCOL : Z.
Variable SERIALIZATION_DOCUMENT2CSV : pyval.

Definition __init__ (host : string) (port : Z) : OrientSocket :=
  {| connected := false;
     host := host;
     port := port;
     _socket := socket_new;
     protocol := -1;
     session_id := -1;
     auth_token := [];
     db_opened := None;
     serialization_type := SERIALIZATION_DOCUMENT2CSV;
     in_transaction := false |}.

(** The handler of [connect]:
[[
  except socket.error as e:
      self.connected = False
      raise PyOrientConnectionException( "Socket Error: %s" % e, [] )
]]
    Other exceptions pass through it untouched. *)
Definition connect_except (e : exn) (s : OrientSocket)
  : outcome OrientSocket unit :=
  match e with
  | socket_error msg =>
      Raise (PyOrientConnectionException ("Socket Error: " +:+ msg))
            (set_connected false s)
  | _ => Raise e s
  end.

Definition connect (p : peer) (s : OrientSocket) : outcome OrientSocket unit :=
  let s0 := set_socket (settimeout SOCK_CONN_TIMEOUT socket_new) s in
  match socket_connect p (_socket s0) with
  | Hang => Hang
  | Raise e sk1 => connect_except e (set_socket sk1 s0)
  | Return _ sk1 =>
      match socket_recv FIELD_SHORT_bytes sk1 with
      | Hang => Hang
      | Raise e sk2 => connect_except e (set_socket sk2 s0)
      | Return _value sk2 =>
          match _value with
          | [b0; b1] =>
              let s3 := set_protocol (unpack_short b0 b1) (set_socket sk2 s0) in
              if SUPPORTED_PROTOCOL <? protocol s3
              then Raise (PyOrientWrongProtocolVersionException
                            ("Protocol version " +:+ pretty (protocol s3) +:+
                             " is not supported yet by this client."))
                         s3
              else Return tt (set_connected true s3)
          | _ => (* len(_value) != 2 *)
              Raise (PyOrientConnectionPoolException "Server sent empty string")
                    (set_socket (socket_close sk2) s0)
          end
      end
  end.

Definition get_connection (p : peer) (s : OrientSocket)
  : outcome OrientSocket socket :=
  if negb (connected s)
  then match connect p s with
       | Return _ s' => Return (_socket s') s'
       | Raise e s' => Raise e s'
       | Hang => Hang
       end
  else Return (_socket s) s.

Definition close (s : OrientSocket) : outcome OrientSocket unit :=
  Return tt
    {| connected := false;
       host := "";
       port := 0;
       _socket := socket_close (_socket s);
       protocol := -1;
       session_id := -1;
       auth_token := auth_token s;
       db_opened := db_opened s;
       serialization_type := serialization_type s;
       in_transaction := in_transaction s |}.

Definition write (buff : bytes) (s : OrientSocket) : outcome OrientSocket Z :=
  match socket_send buff (_socket s) with
  | Return n sk => Return n (set_socket sk s)
  | Raise e sk => Raise e (set_socket sk s)
  | Hang => Hang
  end.

(** What [read] does once [select] has reported the socket readable:
    [bytearray(_len_to_read)] (which rejects a negative size), then the
    receive loop on a view of the whole buffer. *)
Definition read_ready (_len_to_read : Z) (s : OrientSocket)
  : outcome OrientSocket bytes :=
  if _len_to_read <? 0 then Raise (ValueError "negative count") s
  else
    let buf := replicate (Z.to_nat _len_to_read) Byte.x00 in
    match recv_loop (_socket s) buf 0 (Z.to_nat _len_to_read) with
    | Return b sk => Return b (set_socket sk s)
    | Raise e sk => Raise e (set_socket sk s)
    | Hang => Hang
    end.

End OrientSocket.

(** The handler around [select] in [read]:
[[
    except select.error as e:
        self.connected = False
        raise e
]]
    Other exceptions pass through it untouched. *)
Definition read_except (e : exn) (s : OrientSocket) : outcome OrientSocket bytes :=
  match e with
  | select_error msg => Raise e (set_connected false s)
  | _ => Raise e s
  end.

(** [read]: the outer [while True] waits on [select].  A readable socket
    ([len(ready_to_read) > 0]) is read until the buffer is full, whatever
    [in_error] holds; a socket in error and not readable is closed and the
    call fails; a wait that reports neither goes round again.  The script of
    [select] answers shrinks with every round. *)
Equations? read (_len_to_read : Z) (s : OrientSocket)
  : outcome OrientSocket bytes by wf (length (sock_selects (_socket s))) lt :=
  read n s with inspect (socket_select (_socket s)) := {
    | exist _ Hang _ := Hang;
    | exist _ (Raise e sk) _ := read_except e (set_socket sk s);
    | exist _ (Return (true, _) sk) _ := read_ready n (set_socket sk s);
    | exist _ (Return (false, true) sk) _ :=
        Raise (PyOrientConnectionException "Socket error")
              (set_socket (socket_close sk) s);
    | exist _ (Return (false, false) sk) Hsel := read n (set_socket sk s) }.
Proof.
  unfold socket_select in Hsel.
  destruct (sock_closed (_socket s)); [discriminate|].
  destruct (sock_selects (_socket s)) as [|[r e|msg] rest]; try discriminate.
  injection Hsel as _ _ <-. simpl. lia.
Defined.


(** ** Reachable states

    The states an [OrientSocket] goes through from its construction, under
    any calls of [connect], [get_connection], [read], [write] and [close],
    against any peers.  With [guarded] set, [connect] is only called on an
    object that is not connected, which is how [get_connection] calls it. *)
Inductive reachable (SUPPORTED_PROTOCOL : Z) (guarded : bool)
  : OrientSocket -> Prop :=
| reach_init (ser : pyval) (host : string) (port : Z) :
    reachable SUPPORTED_PROTOCOL guarded (__init__ ser host port)
| reach_connect (p : peer) (s s' : OrientSocket) :
    reachable SUPPORTED_PROTOCOL guarded s ->
    (guarded = true -> connected s = false) ->
    final_state (connect SUPPORTED_PROTOCOL p s) = Some s' ->
    reachable SUPPORTED_PROTOCOL guarded s'
| reach_get_connection (p : peer) (s s' : OrientSocket) :
    reachable SUPPORTED_PROTOCOL guarded s ->
    final_state (get_connection SUPPORTED_PROTOCOL p s) = Some s' ->
    reachable SUPPORTED_PROTOCOL guarded s'
| reach_read (n : Z) (s s' : OrientSocket) :
    reachable SUPPORTED_PROTOCOL guarded s ->
    final_state (read n s) = Some s' ->
    reachable SUPPORTED_PROTOCOL guarded s'
| reach_write (buff : bytes) (s s' : OrientSocket) :
    reachable SUPPORTED_PROTOCOL guarded s ->
    final_state (write buff s) = Some s' ->
    reachable SUPPORTED_PROTOCOL guarded s'
| reach_close (s s' : OrientSocket) :
    reachable SUPPORTED_PROTOCOL guarded s ->
    final_state (close s) = Some s' ->
    reachable SUPPORTED_PROTOCOL guarded s'.

(** ** Messages

    Modelled from the spec: the message classes of [pyorient.messages] are
    not part of this file.  A [Message] is "a capability bound to the current
    FramedSocket and Session" that carries the token injected into it; its
    contract is [prepare(operation_args) -> Message], [send() -> Message]
    (writes through the bound connection) and [fetch_response() -> Result]
    (reads through it, and may update the session held by the connection).
    The handle records the class resolved, the module it was imported from
    and the token given to its [set_session_token]; the connection it is
    bound to is the one of the facade, on which the three capabilities act. *)
Record Message : Type := mk_Message {
  msg_module : string;
  msg_class : string;
  msg_token : option bytes
}.

Class MessageCapability : Type := {
  prepare : Message -> list pyval -> OrientSocket -> outcome OrientSocket Message;
  send : Message -> OrientSocket -> outcome OrientSocket Message;
  fetch_response : Message -> OrientSocket -> outcome OrientSocket pyval
}.

(** What a facade operation hands back: a Python value, or a message
    object. *)
Inductive retval : Type :=
| Value (v : pyval)
| MessageObject (m : Message).

(** ** OrientDB *)

Record OrientDB : Type := mk_OrientDB {
  _connection : OrientSocket;
  _auth_token : option bytes
}.

(** Calls on the facade thread the facade object. *)
Definition M (A : Type) : Type := OrientDB -> outcome OrientDB A.

Definition ret {A} (a : A) : M A := fun o => Return a o.

Definition raise {A} (e : exn) : M A := fun o => Raise e o.

Definition bind {A B} (m : M A) (f : A -> M B) : M B :=
  fun o =>
    match m o with
    | Return a o' => f a o'
    | Raise e o' => Raise e o'
    | Hang => Hang
    end.

Notation "x <- m ;; k" := (bind m (fun x => k))
  (at level 100, m at next level, right associativity).

(** A capability runs on the connection the facade holds. *)
Definition on_connection {A} (f : OrientSocket -> outcome OrientSocket A) : M A :=
  fun o =>
    match f (_connection o) with
    | Return a c => Return a (mk_OrientDB c (_auth_token o))
    | Raise e c => Raise e (mk_OrientDB c (_auth_token o))
    | Hang => Hang
    end.

Module OrientDB.

(** The class attribute [_Messages]: message class to the module that
    declares it. *)
Definition _Messages : gmap string string :=
  list_to_map
    [ ("ConnectMessage", "pyorient.messages.connection");
      ("ShutdownMessage", "pyorient.messages.connection");
      ("DbOpenMessage", "pyorient.messages.database");
      ("DbCloseMessage", "pyorient.messages.database");
      ("DbExistsMessage", "pyorient.messages.database");
      ("DbCreateMessage", "pyorient.messages.database");
      ("DbDropMessage", "pyorient.messages.database");
      ("DbCountRecordsMessage", "pyorient.messages.database");
      ("DbReloadMessage", "pyorient.messages.database");
      ("DbSizeMessage", "pyorient.messages.database");
      ("DbListMessage", "pyorient.messages.database");
      ("DataClusterAddMessage", "pyorient.messages.cluster");
      ("DataClusterCountMessage", "pyorient.messages.cluster");
      ("DataClusterDataRangeMessage", "pyorient.messages.cluster");
      ("DataClusterDropMessage", "pyorient.messages.cluster");
      ("RecordCreateMessage", "pyorient.messages.records");
      ("RecordDeleteMessage", "pyorient.messages.records");
      ("RecordLoadMessage", "pyorient.messages.records");
      ("RecordUpdateMessage", "pyorient.messages.records");
      ("CommandMessage", "pyorient.messages.commands");
      ("TxCommitMessage", "pyorient.messages.commands") ].

(** [OrientDB(host, port)]: [host] is a host name, or a ready
    [OrientSocket] that is taken as it is. *)
Definition __init__ (SERIALIZATION_DOCUMENT2CSV : pyval)
    (host : string + OrientSocket) (port : Z) : OrientDB :=
  let connection :=
    match host with
    | inl name => __init__ SERIALIZATION_DOCUMENT2CSV name port
    | inr sock => sock
    end in
  {| _connection := connection; _auth_token := None |}.

Definition set_session_token (token : bytes) (o : OrientDB) : OrientDB :=
  {| _connection := _connection o; _auth_token := Some token |}.

Definition get_session_token (o : OrientDB) : bytes :=
  auth_token (_connection o).

(** The token [get_message] gives to the message:
[[
  if self._connection.auth_token != b'':
      token = self._connection.auth_token
  else:
      token = self._auth_token
]] *)
Definition session_token (o : OrientDB) : option bytes :=
  match auth_token (_connection o) with
  | [] => _auth_token o
  | tok => Some tok
  end.

(** The message factory.  [command=None] falls out of the [if] and
    returns [None]; a name that is not a key of [_Messages] raises
    [KeyError], which becomes [PyOrientBadMethodCallException]; a name with
    an empty module would also fall out of the [if].  For a registered name
    the module is imported and the class taken from it ([__import__],
    [getattr]: both are modules and classes of the package), and
    [_Message(self._connection).set_session_token(token)] is the handle of
    that class carrying [token]. *)
Definition get_message (command : option string) : M (option Message) :=
  fun o =>
    match command with
    | None => Return None o
    | Some name =>
        match _Messages !! name with
        | None =>
            Raise (PyOrientBadMethodCallException
                     ("Unable to find command '" +:+ name +:+ "'")) o
        | Some module =>
            if String.eqb module "" then Return None o
            else
              let token := session_token o in
              Return (Some (mk_Message module name token)) o
        end
    end.

(** *** Names resolved by [__getattr__]

    [str.capitalize], [str.split('_')] and [''.join] on attribute names made
    of ASCII characters (codes below 128, see [ascii_only]): [capitalize]
    puts the first character in upper case and the others in lower case,
    [split] cuts at every underscore (so that a leading, trailing or doubled
    underscore gives an empty piece).  On ASCII characters the case mapping
    of Python is the one of the letters [a-z] and [A-Z] below; a character
    outside ASCII, which Python maps by the Unicode tables, is outside this
    model, and what depends on the case mapping is stated for [ascii_only]
    names. *)
Fixpoint ascii_only (s : string) : Prop :=
  match s with
  | EmptyString => True
  | String c rest => (Ascii.nat_of_ascii c < 128)%nat /\ ascii_only rest
  end.

Definition ascii_upper (c : Ascii.ascii) : Ascii.ascii :=
  let n := Ascii.nat_of_ascii c in
  if ((97 <=? n) && (n <=? 122))%nat then Ascii.ascii_of_nat (n - 32) else c.

Definition ascii_lower (c : Ascii.ascii) : Ascii.ascii :=
  let n := Ascii.nat_of_ascii c in
  if ((65 <=? n) && (n <=? 90))%nat then Ascii.ascii_of_nat (n + 32) else c.

Fixpoint lower (s : string) : string :=
  match s with
  | EmptyString => EmptyString
  | String c rest => String (ascii_lower c) (lower rest)
  end.

Definition capitalize (s : string) : string :=
  match s with
  | EmptyString => EmptyString
  | String c rest => String (ascii_upper c) (lower rest)
  end.

Fixpoint split (sep : Ascii.ascii) (s : string) : list string :=
  match s with
  | EmptyString => [EmptyString]
  | String c rest =>
      if Ascii.eqb c sep then EmptyString :: split sep rest
      else match split sep rest with
           | piece :: pieces => String c piece :: pieces
           | [] => [String c EmptyString]
           end
  end.

(** The character ['_'] (code 95). *)
Definition underscore : Ascii.ascii := Ascii.ascii_of_nat 95.

(** ["".join( [i.capitalize() for i in item.split('_')] )] *)
Definition _names (item : string) : string :=
  String.concat "" (map capitalize (split underscore item)).

(** [a, b, c = r]: any iterable of exactly three items unpacks (a tuple or
    a list, but also a text of three characters or three bytes); an iterable
    of another length raises [ValueError], a value that is not iterable
    raises [TypeError]. *)
Definition unpack3_length (n : nat) : exn + unit :=
  if (n =? 3)%nat then inr tt
  else if (n <? 3)%nat
       then inl (ValueError "not enough values to unpack (expected 3)")
       else inl (ValueError "too many values to unpack (expected 3)").

Definition unpack3 (r : pyval) : exn + unit :=
  match r with
  | PyTuple items => unpack3_length (length items)
  | PyStr text => unpack3_length (String.length text)
  | PyBytes b => unpack3_length (length b)
  | PyNone | PyBool _ | PyInt _ =>
      inl (TypeError "cannot unpack non-iterable object")
  end.

(** The operations of the facade, as calls with their arguments. *)
Inductive facade_call : Type :=
| Connect (user password : pyval) (client_id serialization_type : option pyval)
| DbCountRecords
| DbCreate (name : pyval) (type storage : option pyval)
| DbDrop (name : pyval) (type : option pyval)
| DbExists (name : pyval) (type : option pyval)
| DbOpen (db_name user password : pyval) (db_type client_id : option pyval)
| DbReload (args : list pyval)
| Shutdown (args : list pyval)
| Gremlin (args : list pyval)
| Command (args : list pyval)
| Batch (args : list pyval)
| Query (args : list pyval)
| QueryAsync (args : list pyval)
| DataClusterAdd (args : list pyval)
| DataClusterCount (args : list pyval)
| DataClusterDataRange (args : list pyval)
| DataClusterDrop (args : list pyval)
| DbClose (args : list pyval)
| DbSize (args : list pyval)
| DbList (args : list pyval)
| RecordCreate (args : list pyval)
| RecordDelete (args : list pyval)
| RecordLoad (args : list pyval)
| RecordUpdate (args : list pyval)
| TxCommit.

Definition is_tx_commit (c : facade_call) : bool :=
  match c with TxCommit => true | _ => false end.

Section Facade.

Context `{MessageCapability}.

(** String constants of [pyorient/constants.py]. *)
Variables QUERY_ASYNC QUERY_CMD QUERY_GREMLIN QUERY_SYNC QUERY_SCRIPT : pyval.
Variables SERIALIZATION_DOCUMENT2CSV DB_TYPE_DOCUMENT STORAGE_TYPE_PLOCAL : pyval.

(** A method called on what [get_message] returned: [None] has none. *)
Definition the_message (m : option Message) (method : string) : M Message :=
  match m with
  | Some msg => ret msg
  | None =>
      raise (AttributeError
               ("'NoneType' object has no attribute '" +:+ method +:+ "'"))
  end.

(** [self.get_message(name).prepare(args).send().fetch_response()] *)
Definition prepare_send_fetch (name : string) (args : list pyval) : M pyval :=
  m <- get_message (Some name) ;;
  m0 <- the_message m "prepare" ;;
  m1 <- on_connection (prepare m0 args) ;;
  m2 <- on_connection (send m1) ;;
  on_connection (fetch_response m2).


Definition connect (user password : pyval)
    (client_id serialization_type : option pyval) : M retval :=
  r <- prepare_send_fetch "ConnectMessage"
         [user; password; default (PyStr "") client_id;
          default SERIALIZATION_DOCUMENT2CSV serialization_type] ;;
  ret (Value r).

Definition db_count_records : M retval :=
  r <- prepare_send_fetch "DbCountRecordsMessage" [] ;;
  ret (Value r).

Definition db_create (name : pyval) (type storage : option pyval) : M retval :=
  _ <- prepare_send_fetch "DbCreateMessage"
         [name; default DB_TYPE_DOCUMENT type;
          default STORAGE_TYPE_PLOCAL storage] ;;
  ret (Value PyNone).

Definition db_drop (name : pyval) (type : option pyval) : M retval :=
  _ <- prepare_send_fetch "DbDropMessage"
         [name; default STORAGE_TYPE_PLOCAL type] ;;
  ret (Value PyNone).

Definition db_exists (name : pyval) (type : option pyval) : M retval :=
  r <- prepare_send_fetch "DbExistsMessage"
         [name; default STORAGE_TYPE_PLOCAL type] ;;
  ret (Value r).

(** [info, clusters, nodes = ...fetch_response()]: the response is
    unpacked into three names; the method then ends in a bare [return]. *)
Definition db_open (db_name user password : pyval)
    (db_type client_id : option pyval) : M retval :=
  r <- prepare_send_fetch "DbOpenMessage"
         [db_name; user; password; default DB_TYPE_DOCUMENT db_type;
          default (PyStr "") client_id] ;;
  match unpack3 r with
  | inr _ => ret (Value PyNone)
  | inl e => raise e
  end.

Definition db_reload (args : list pyval) : M retval :=
  r <- prepare_send_fetch "DbReloadMessage" args ;; ret (Value r).

Definition shutdown (args : list pyval) : M retval :=
  r <- prepare_send_fetch "ShutdownMessage" args ;; ret (Value r).

Definition gremlin (args : list pyval) : M retval :=
  r <- prepare_send_fetch "CommandMessage" (QUERY_GREMLIN :: args) ;;
  ret (Value r).

Definition command (args : list pyval) : M retval :=
  r <- prepare_send_fetch "CommandMessage" (QUERY_CMD :: args) ;;
  ret (Value r).

Definition batch (args : list pyval) : M retval :=
  r <- prepare_send_fetch "CommandMessage" (QUERY_SCRIPT :: args) ;;
  ret (Value r).

Definition query (args : list pyval) : M retval :=
  r <- prepare_send_fetch "CommandMessage" (QUERY_SYNC :: args) ;;
  ret (Value r).

Definition query_async (args : list pyval) : M retval :=
  r <- prepare_send_fetch "CommandMessage" (QUERY_ASYNC :: args) ;;
  ret (Value r).

Definition data_cluster_add (args : list pyval) : M retval :=
  r <- prepare_send_fetch "DataClusterAddMessage" args ;; ret (Value r).

Definition data_cluster_count (args : list pyval) : M retval :=
  r <- prepare_send_fetch "DataClusterCountMessage" args ;; ret (Value r).

Definition data_cluster_data_range (args : list pyval) : M retval :=
  r <- prepare_send_fetch "DataClusterDataRangeMessage" args ;; ret (Value r).

Definition data_cluster_drop (args : list pyval) : M retval :=
  r <- prepare_send_fetch "DataClusterDropMessage" args ;; ret (Value r).

Definition db_close (args : list pyval) : M retval :=
  r <- prepare_send_fetch "DbCloseMessage" args ;; ret (Value r).

Definition db_size (args : list pyval) : M retval :=
  r <- prepare_send_fetch "DbSizeMessage" args ;; ret (Value r).

Definition db_list (args : list pyval) : M retval :=
  r <- prepare_send_fetch "DbListMessage" args ;; ret (Value r).

Definition record_create (args : list pyval) : M retval :=
  r <- prepare_send_fetch "RecordCreateMessage" args ;; ret (Value r).

Definition record_delete (args : list pyval) : M retval :=
  r <- prepare_send_fetch "RecordDeleteMessage" args ;; ret (Value r).

Definition record_load (args : list pyval) : M retval :=
  r <- prepare_send_fetch "RecordLoadMessage" args ;; ret (Value r).

Definition record_update (args : list pyval) : M retval :=
  r <- prepare_send_fetch "RecordUpdateMessage" args ;; ret (Value r).

(** [return self.get_message("TxCommitMessage")] *)
Definition tx_commit : M retval :=
  m <- get_message (Some "TxCommitMessage") ;;
  match m with
  | Some msg => ret (MessageObject msg)
  | None => ret (Value PyNone)
  end.

(** The message class that each method names, and the tuple that it
    gives to [prepare], method by method. *)
Definition message_class (c : facade_call) : string :=
  match c with
  | Connect _ _ _ _ => "ConnectMessage"
  | DbCountRecords => "DbCountRecordsMessage"
  | DbCreate _ _ _ => "DbCreateMessage"
  | DbDrop _ _ => "DbDropMessage"
  | DbExists _ _ => "DbExistsMessage"
  | DbOpen _ _ _ _ _ => "DbOpenMessage"
  | DbReload _ => "DbReloadMessage"
  | Shutdown _ => "ShutdownMessage"
  | Gremlin _ | Command _ | Batch _ | Query _ | QueryAsync _ => "CommandMessage"
  | DataClusterAdd _ => "DataClusterAddMessage"
  | DataClusterCount _ => "DataClusterCountMessage"
  | DataClusterDataRange _ => "DataClusterDataRangeMessage"
  | DataClusterDrop _ => "DataClusterDropMessage"
  | DbClose _ => "DbCloseMessage"
  | DbSize _ => "DbSizeMessage"
  | DbList _ => "DbListMessage"
  | RecordCreate _ => "RecordCreateMessage"
  | RecordDelete _ => "RecordDeleteMessage"
  | RecordLoad _ => "RecordLoadMessage"
  | RecordUpdate _ => "RecordUpdateMessage"
  | TxCommit => "TxCommitMessage"
  end.

Definition message_args (c : facade_call) : list pyval :=
  match c with
  | Connect user password client_id serialization_type =>
      [user; password; default (PyStr "") client_id;
       default SERIALIZATION_DOCUMENT2CSV serialization_type]
  | DbCountRecords => []
  | DbCreate name type storage =>
      [name; default DB_TYPE_DOCUMENT type; default STORAGE_TYPE_PLOCAL storage]
  | DbDrop name type | DbExists name type =>
      [name; default STORAGE_TYPE_PLOCAL type]
  | DbOpen db_name user password db_type client_id =>
      [db_name; user; password; default DB_TYPE_DOCUMENT db_type;
       default (PyStr "") client_id]
  | Gremlin args => QUERY_GREMLIN :: args
  | Command args => QUERY_CMD :: args
  | Batch args => QUERY_SCRIPT :: args
  | Query args => QUERY_SYNC :: args
  | QueryAsync args => QUERY_ASYNC :: args
  | DbReload args | Shutdown args
  | DataClusterAdd args | DataClusterCount args | DataClusterDataRange args
  | DataClusterDrop args | DbClose args | DbSize args | DbList args
  | RecordCreate args | RecordDelete args | RecordLoad args
  | RecordUpdate args => args
  | TxCommit => []
  end.

Definition invoke (c : facade_call) : M retval :=
  match c with
  | Connect u p ci st => connect u p ci st
  | DbCountRecords => db_count_records
  | DbCreate n t st => db_create n t st
  | DbDrop n t => db_drop n t
  | DbExists n t => db_exists n t
  | DbOpen n u p t ci => db_open n u p t ci
  | DbReload args => db_reload args
  | Shutdown args => shutdown args
  | Gremlin args => gremlin args
  | Command args => command args
  | Batch args => batch args
  | Query args => query args
  | QueryAsync args => query_async args
  | DataClusterAdd args => data_cluster_add args
  | DataClusterCount args => data_cluster_count args
  | DataClusterDataRange args => data_cluster_data_range args
  | DataClusterDrop args => data_cluster_drop args
  | DbClose args => db_close args
  | DbSize args => db_size args
  | DbList args => db_list args
  | RecordCreate args => record_create args
  | RecordDelete args => record_delete args
  | RecordLoad args => record_load args
  | RecordUpdate args => record_update args
  | TxCommit => tx_commit
  end.

(** [__getattr__(item)], which Python calls for an attribute that the
    object does not have: the message is resolved when the attribute is
    read, and the function returned runs that message on the arguments of
    the call, as they are. *)
Definition __getattr__ (item : string) : M (list pyval -> M pyval) :=
  _Message <- get_message (Some (_names item +:+ "Message")) ;;
  ret (fun args =>
         m0 <- the_message _Message "prepare" ;;
         m1 <- on_connection (prepare m0 args) ;;
         m2 <- on_connection (send m1) ;;
         on_connection (fetch_response m2)).

End Facade.

End OrientDB.

(** * Properties of the transport *)

(** ** The two loops of [read], one round at a time *)

Lemma recv_loop_step sk buf off r :
  recv_loop sk buf off (S r) =
  match socket_recv_into (S r) buf off sk with
  | Raise e sk' => Raise e sk'
  | Hang => Hang
  | Return (0%nat, _) sk' =>
      Raise (PyOrientConnectionException "Server seems to have went down")
            (socket_close sk')
  | Return (S m, buf') sk' => recv_loop sk' buf' (off + S m) (S r - S m)
  end.
Proof.
  simp recv_loop.
  destruct (socket_recv_into (S r) buf off sk) as [[[|m] b] sk'|e sk'|];
    simp recv_loop; reflexivity.
Qed.


Lemma read_step n s :
  read n s =
  match socket_select (_socket s) with
  | Hang => Hang
  | Raise e sk => read_except e (set_socket sk s)
  | Return (true, _) sk => read_ready n (set_socket sk s)
  | Return (false, true) sk =>
      Raise (PyOrientConnectionException "Socket error")
            (set_socket (socket_close sk) s)
  | Return (false, false) sk => read n (set_socket sk s)
  end.
Proof.
  simp read. unfold inspect.
  generalize (@eq_refl _ (socket_select (_socket s))).
  generalize (socket_select (_socket s)) at 2 4 5.
  intros o Ho.
  destruct o as [[[|] [|]] sk|e sk|]; simp read; reflexivity.
Qed.

Lemma socket_eta sk :
  mk_socket (sock_closed sk) (sock_timeout sk) (sock_selects sk) (sock_recvs sk)
            (sock_sends sk) (sock_out sk) = sk.
Proof. destruct sk; reflexivity. Qed.

Lemma write_at_length off data buf :
  (off + length data <= length buf)%nat ->
  length (write_at off data buf) = length buf.
Proof.
  intros Hle. unfold write_at.
  rewrite !length_app, length_take, length_drop. lia.
Qed.

Lemma write_at_take off data buf :
  (off + length data <= length buf)%nat ->
  take (off + length data) (write_at off data buf) = take off buf ++ data.
Proof.
  intros Hle. unfold write_at.
  rewrite app_assoc.
  rewrite take_app_le by (rewrite length_app, length_take; lia).
  apply take_ge. rewrite length_app, length_take. lia.
Qed.

Lemma write_at_drop off data buf k :
  (off + length data <= length buf)%nat ->
  drop (off + length data + k) (write_at off data buf)
  = drop (off + length data + k) buf.
Proof.
  intros Hle. unfold write_at.
  rewrite app_assoc.
  rewrite drop_app_ge by (rewrite length_app, length_take; lia).
  rewrite length_app, length_take, drop_drop.
  f_equal. lia.
Qed.

(** The receive loop over deliveries that all hold data: the chunks fill the
    buffer one after the other from [off] on, and the loop goes on with what
    is still missing. *)
Lemma recv_loop_prefix (chunks : list bytes) :
  forall (sk : socket) (buf : bytes) (off len : nat) (rest : list recv_event),
    sock_closed sk = false ->
    sock_recvs sk = map Data chunks ++ rest ->
    Forall (fun c => c <> []) chunks ->
    (length (concat chunks) <= len)%nat ->
    (off + len <= length buf)%nat ->
    recv_loop sk buf off len
    = recv_loop (with_recvs rest sk)
        (take off buf ++ concat chunks
           ++ drop (off + length (concat chunks)) buf)
        (off + length (concat chunks)) (len - length (concat chunks)).
Proof.
  induction chunks as [|c cs IH];
    intros sk buf off len rest Hopen Hrecvs Hne Hlen Hfit.
  - simpl in *. rewrite !Nat.add_0_r, Nat.sub_0_r, take_drop.
    unfold with_recvs. rewrite <- Hrecvs. by rewrite socket_eta.
  - apply Forall_cons in Hne as [Hc Hcs].
    destruct c as [|b c']; [done|].
    simpl concat in *. simpl length in *. rewrite length_app in *.
    destruct len as [|r]; [lia|].
    rewrite recv_loop_step.
    unfold socket_recv_into, socket_recv. rewrite Hopen, Hrecvs. simpl.
    destruct (Nat.leb_spec (length c') r) as [_|?]; [|lia].
    change (length (b :: c')) with (S (length c')). cbv iota beta.
    rewrite IH with (rest := rest); try done.
    + f_equal.
      * change (S (length c')) with (length (b :: c')).
        rewrite write_at_take by (simpl; lia).
        rewrite write_at_drop by (simpl; lia).
        rewrite <- !app_assoc. simpl.
        replace (off + S (length c') + length (concat cs))%nat
          with (off + S (length c' + length (concat cs)))%nat by lia.
        reflexivity.
      * lia.
      * lia.
    + lia.
    + rewrite write_at_length by (simpl; lia). lia.
Qed.

Lemma recv_loop_chunks (chunks : list bytes) :
  forall (sk : socket) (buf : bytes) (off : nat) (rest : list recv_event),
    sock_closed sk = false ->
    sock_recvs sk = map Data chunks ++ rest ->
    Forall (fun c => c <> []) chunks ->
    (off + length (concat chunks) <= length buf)%nat ->
    recv_loop sk buf off (length (concat chunks))
    = Return (take off buf ++ concat chunks
                ++ drop (off + length (concat chunks)) buf)
             (with_recvs rest sk).
Proof.
  intros sk buf off rest Hopen Hrecvs Hne Hfit.
  rewrite (recv_loop_prefix chunks sk buf off _ rest) by done.
  rewrite Nat.sub_diag. by simp recv_loop.
Qed.

Lemma select_idle_round (sk : socket) (evs : list select_event) :
  sock_closed sk = false ->
  sock_selects sk = SelectReturns false false :: evs ->
  socket_select sk = Return (false, false) (with_selects evs sk).
Proof. intros Hopen Hsel. unfold socket_select. by rewrite Hopen, Hsel. Qed.

Lemma select_ready_round (sk : socket) (e : bool) (evs : list select_event) :
  sock_closed sk = false ->
  sock_selects sk = SelectReturns true e :: evs ->
  socket_select sk = Return (true, e) (with_selects evs sk).
Proof. intros Hopen Hsel. unfold socket_select. by rewrite Hopen, Hsel. Qed.

(** Idle rounds of the wait do not count: [read] after [idle] waits that
    report nothing is [read] on the rest of the script. *)
Lemma read_skips_idle_rounds (n : Z) (idle : nat) :
  forall (s : OrientSocket) (evs : list select_event),
    sock_closed (_socket s) = false ->
    sock_selects (_socket s) = replicate idle (SelectReturns false false) ++ evs ->
    read n s = read n (set_socket (with_selects evs (_socket s)) s).
Proof.
  induction idle as [|k IH]; intros s evs Hopen Hsel.
  - simpl in Hsel. unfold with_selects. rewrite <- Hsel, socket_eta.
    by destruct s.
  - simpl in Hsel. rewrite read_step.
    rewrite (select_idle_round _ _ Hopen Hsel).
    rewrite (IH _ evs); [done|done|done].
Qed.

(** C1. When the wait reports the socket readable (after any number of idle
    rounds) and the stream then delivers the chunks [chunks], every one of
    them holding at least one byte and their sizes summing to [n > 0],
    [read(n)] returns exactly these [n] bytes in the order of delivery: the
    result is never shorter than [n].  It consumes exactly these deliveries
    and leaves the [connected] flag as it was. *)
Theorem read_returns_the_deliveries
    (n : Z) (s : OrientSocket) (idle : nat) (in_error : bool)
    (later : list select_event) (chunks : list bytes) (rest : list recv_event) :
  0 < n ->
  sock_closed (_socket s) = false ->
  sock_selects (_socket s)
    = replicate idle (SelectReturns false false)
        ++ SelectReturns true in_error :: later ->
  sock_recvs (_socket s) = map Data chunks ++ rest ->
  Forall (fun c => c <> []) chunks ->
  Z.of_nat (length (concat chunks)) = n ->
  exists s' : OrientSocket,
    read n s = Return (concat chunks) s'
    /\ Z.of_nat (length (concat chunks)) = n
    /\ sock_recvs (_socket s') = rest
    /\ sock_selects (_socket s') = later
    /\ connected s' = connected s.
Proof.
  intros Hpos Hopen Hsel Hrecvs Hne Hsum.
  rewrite (read_skips_idle_rounds n idle s _ Hopen Hsel).
  rewrite read_step. simpl _socket.
  rewrite (select_ready_round _ in_error later) by done.
  unfold read_ready.
  destruct (Z.ltb_spec n 0) as [?|_]; [lia|].
  replace (Z.to_nat n) with (length (concat chunks)) by lia.
  simpl _socket.
  rewrite (recv_loop_chunks chunks _ _ 0%nat rest); try done.
  - eexists. split.
    + f_equal. simpl.
      rewrite drop_ge by (rewrite length_replicate; lia).
      by rewrite app_nil_r.
    + by repeat split.
  - rewrite length_replicate. lia.
Qed.

Lemma read_returns_the_deliveries_witness :
  let chunks := [[Byte.x01]; [Byte.x02; Byte.x03; Byte.x04]; [Byte.x05; Byte.x06]] in
  let sk := mk_socket false (Some 30)
              [SelectReturns false false; SelectReturns false false;
               SelectReturns true false]
              (map Data chunks) [] [] in
  let s := set_connected true (set_socket sk (__init__ PyNone "localhost" 2424)) in
  exists s' : OrientSocket,
    read 6 s
    = Return [Byte.x01; Byte.x02; Byte.x03; Byte.x04; Byte.x05; Byte.x06] s'
    /\ Z.of_nat (length (concat chunks)) = 6
    /\ sock_recvs (_socket s') = []
    /\ sock_selects (_socket s') = []
    /\ connected s' = true.
Proof.
  intros chunks sk s.
  apply (read_returns_the_deliveries 6 s 2 false [] chunks []).
  - lia.
  - reflexivity.
  - reflexivity.
  - reflexivity.
  - repeat constructor; discriminate.
  - reflexivity.
Defined.

(** [recv(k)] never hands over more than [k] bytes. *)
Lemma socket_recv_bound (k : nat) (sk sk' : socket) (data : bytes) :
  socket_recv k sk = Return data sk' -> (length data <= k)%nat.
Proof.
  unfold socket_recv. destruct (sock_closed sk); [done|].
  destruct (sock_recvs sk) as [|[bs|msg] rest]; try done.
  destruct (Nat.leb_spec (length bs) k) as [Hle|Hgt]; intros [= <- _].
  - done.
  - rewrite length_take. lia.
Qed.

(** The receive loop only ever returns the whole buffer. *)
Lemma recv_loop_length (len : nat) :
  forall (sk sk' : socket) (buf b : bytes) (off : nat),
    (off + len <= length buf)%nat ->
    recv_loop sk buf off len = Return b sk' ->
    length b = length buf.
Proof.
  induction len as [len IH] using lt_wf_ind; intros sk sk' buf b off Hfit.
  destruct len as [|r].
  - simp recv_loop. by intros [= <- _].
  - rewrite recv_loop_step. unfold socket_recv_into.
    destruct (socket_recv (S r) sk) as [data sk1|e sk1|] eqn:Hrecv; try done.
    apply socket_recv_bound in Hrecv.
    destruct data as [|d data]; [done|]. simpl length.
    intros Hloop. apply IH in Hloop.
    + rewrite Hloop. apply write_at_length. simpl in *. lia.
    + lia.
    + rewrite write_at_length; simpl in *; lia.
Qed.

(** No short read: whenever [read(n)] returns, it returns [n] bytes. *)
Lemma read_never_short (n : Z) (s s' : OrientSocket) (b : bytes) :
  read n s = Return b s' -> Z.of_nat (length b) = n.
Proof.
  remember (length (sock_selects (_socket s))) as m eqn:Hm.
  revert s Hm. induction m as [m IH] using lt_wf_ind. intros s Hm.
  rewrite read_step.
  destruct (socket_select (_socket s)) as [[ready err] sk|e sk|] eqn:Hsel.
  - destruct ready.
    + unfold read_ready. destruct (Z.ltb_spec n 0) as [?|Hn]; [done|].
      destruct (recv_loop _ _ _ _) as [b' sk'|e sk'|] eqn:Hloop; try done.
      intros [= <- _]. apply recv_loop_length in Hloop.
      * rewrite Hloop, length_replicate. lia.
      * rewrite length_replicate. lia.
    + destruct err; [done|].
      apply (IH (length (sock_selects sk))); [|done].
      unfold socket_select in Hsel.
      destruct (sock_closed (_socket s)); [done|].
      destruct (sock_selects (_socket s)) as [|[r e|msg] rest]; try done.
      injection Hsel as _ _ <-. subst m. simpl. lia.
  - unfold read_except. by destruct e.
  - done.
Qed.

(** ** A receive of zero bytes *)

(** X20. When a receive yields no byte while bytes are still missing,
    after any deliveries that did hold data, [read] closes the OS socket and
    raises [PyOrientConnectionException] ("Server seems to have went down");
    it does not touch the [connected] flag. *)
Lemma read_zero_byte_receive
    (n : Z) (s : OrientSocket) (idle : nat) (in_error : bool)
    (later : list select_event) (chunks : list bytes) (rest : list recv_event) :
  sock_closed (_socket s) = false ->
  sock_selects (_socket s)
    = replicate idle (SelectReturns false false)
        ++ SelectReturns true in_error :: later ->
  sock_recvs (_socket s) = map Data chunks ++ Data [] :: rest ->
  Forall (fun c => c <> []) chunks ->
  Z.of_nat (length (concat chunks)) < n ->
  exists s' : OrientSocket,
    read n s
    = Raise (PyOrientConnectionException "Server seems to have went down") s'
    /\ connected s' = connected s
    /\ sock_closed (_socket s') = true.
Proof.
  intros Hopen Hsel Hrecvs Hne Hshort.
  rewrite (read_skips_idle_rounds n idle s _ Hopen Hsel).
  rewrite read_step. simpl _socket.
  rewrite (select_ready_round _ in_error later) by done.
  unfold read_ready.
  destruct (Z.ltb_spec n 0) as [?|_]; [lia|].
  simpl _socket.
  rewrite (recv_loop_prefix chunks _ _ 0%nat _ (Data [] :: rest)); try done.
  - destruct (Z.to_nat n - length (concat chunks))%nat as [|r] eqn:Hleft; [lia|].
    rewrite recv_loop_step. unfold socket_recv_into, socket_recv. simpl.
    rewrite Hopen. simpl. eexists. by repeat split.
  - lia.
  - rewrite length_replicate. lia.
Qed.

(** C2. The object that a successful [connect()] leaves connected receives
    2 of the 10 bytes it asks for and then a receive of zero bytes: [read]
    raises [PyOrientConnectionException] and closes the OS socket, but the
    [connected] flag is still true afterwards, so that [get_connection] hands
    out the closed socket without reconnecting. *)
Theorem read_zero_byte_keeps_connected :
  let p := mk_peer None [SelectReturns true false]
             [Data [Byte.x00; Byte.x27]; Data [Byte.x01; Byte.x02]; Data []] [] in
  exists s1 s2 : OrientSocket,
    connect 39 p (__init__ PyNone "localhost" 2424) = Return tt s1
    /\ connected s1 = true
    /\ read 10 s1
       = Raise (PyOrientConnectionException "Server seems to have went down") s2
    /\ connected s2 = true
    /\ sock_closed (_socket s2) = true
    /\ get_connection 39 p s2 = Return (_socket s2) s2.
Proof.
  intros p. eexists. eexists.
  split; [vm_compute; reflexivity|].
  split; [reflexivity|].
  split; [vm_compute; reflexivity|].
  by repeat split.
Qed.

(** ** The handshake *)

Lemma unpack_short_range (b0 b1 : Byte.byte) :
  -32768 <= unpack_short b0 b1 <= 32767.
Proof.
  unfold unpack_short.
  pose proof (Byte.to_N_bounded b0). pose proof (Byte.to_N_bounded b1).
  destruct (Z.leb_spec 32768
              (256 * Z.of_N (Byte.to_N b0) + Z.of_N (Byte.to_N b1))); lia.
Qed.

(** The two bytes that the handshake gives for the version [v]: big-endian,
    two's complement on 16 bits.  The high byte is [(v mod 65536) / 256], the
    low byte is [v mod 256]; [unpack_short] reads [v] back from them. *)
Lemma unpack_short_of_version (v : Z) (b0 b1 : Byte.byte) :
  -32768 <= v <= 32767 ->
  Z.of_N (Byte.to_N b0) = (v mod 65536) / 256 ->
  Z.of_N (Byte.to_N b1) = v mod 256 ->
  unpack_short b0 b1 = v.
Proof.
  intros Hrange Hhigh Hlow. unfold unpack_short. rewrite Hhigh, Hlow.
  destruct (Z.leb_spec 32768 (256 * (v mod 65536 / 256) + v mod 256));
    Z.div_mod_to_equations; lia.
Qed.

(** Every frame of two bytes is the frame of exactly one version. *)
Lemma every_frame_is_a_version (b0 b1 : Byte.byte) :
  exists v : Z,
    -32768 <= v <= 32767
    /\ Z.of_N (Byte.to_N b0) = (v mod 65536) / 256
    /\ Z.of_N (Byte.to_N b1) = v mod 256.
Proof.
  pose proof (Byte.to_N_bounded b0). pose proof (Byte.to_N_bounded b1).
  exists (unpack_short b0 b1). unfold unpack_short.
  destruct (Z.leb_spec 32768
              (256 * Z.of_N (Byte.to_N b0) + Z.of_N (Byte.to_N b1)));
    (split; [lia|]); Z.div_mod_to_equations; lia.
Qed.

(** C5. For every version [v] of the signed 16-bit range, received as its
    two big-endian bytes (high byte [(v mod 65536) / 256], low byte
    [v mod 256]) in the first receive on a connection that the peer
    accepted: if [v] exceeds [SUPPORTED_PROTOCOL], [connect()] raises
    [PyOrientWrongProtocolVersionException] and leaves [connected] as it was
    (false for an object that was not connected); otherwise [connect()]
    returns, records [v] as the protocol version and sets [connected] to
    true. *)
Theorem connect_handshake_gate
    (SUPPORTED_PROTOCOL : Z) (p : peer) (s : OrientSocket) (v : Z)
    (b0 b1 : Byte.byte) (more : bytes) (rest : list recv_event) :
  peer_refuses p = None ->
  peer_recvs p = Data (b0 :: b1 :: more) :: rest ->
  -32768 <= v <= 32767 ->
  Z.of_N (Byte.to_N b0) = (v mod 65536) / 256 ->
  Z.of_N (Byte.to_N b1) = v mod 256 ->
  (SUPPORTED_PROTOCOL < v ->
     exists (msg : string) (s' : OrientSocket),
       connect SUPPORTED_PROTOCOL p s
       = Raise (PyOrientWrongProtocolVersionException msg) s'
       /\ connected s' = connected s)
  /\ (v <= SUPPORTED_PROTOCOL ->
        exists s' : OrientSocket,
          connect SUPPORTED_PROTOCOL p s = Return tt s'
          /\ protocol s' = v
          /\ connected s' = true).
Proof.
  intros Hacc Hrecvs Hrange Hhigh Hlow.
  assert (Hrecv : socket_recv FIELD_SHORT_bytes
            (mk_socket false (Some SOCK_CONN_TIMEOUT) (peer_selects p)
               (peer_recvs p) (peer_sends p) [])
          = Return [b0; b1]
              (mk_socket false (Some SOCK_CONN_TIMEOUT) (peer_selects p)
                 (match more with
                  | [] => rest
                  | _ => Data more :: rest
                  end) (peer_sends p) [])).
  { unfold socket_recv. simpl. rewrite Hrecvs.
    by destruct more as [|b2 more]. }
  unfold connect, socket_connect. simpl. rewrite Hacc. simpl.
  unfold FIELD_SHORT_bytes in *. rewrite Hrecv. simpl.
  rewrite (unpack_short_of_version v b0 b1 Hrange Hhigh Hlow).
  split; intros Hv.
  - destruct (Z.ltb_spec SUPPORTED_PROTOCOL v) as [_|?]; [|lia].
    eexists. eexists. by split.
  - destruct (Z.ltb_spec SUPPORTED_PROTOCOL v) as [?|_]; [lia|].
    eexists. by repeat split.
Qed.

Lemma connect_handshake_gate_witness :
  let p := mk_peer None [] [Data [Byte.x00; Byte.x27]] [] in
  exists s' : OrientSocket,
    connect 39 p (__init__ PyNone "localhost" 2424) = Return tt s'
    /\ protocol s' = 39
    /\ connected s' = true.
Proof.
  intros p.
  apply (proj2 (connect_handshake_gate 39 p (__init__ PyNone "localhost" 2424)
                  39 Byte.x00 Byte.x27 [] [] eq_refl eq_refl
                  ltac:(lia) eq_refl eq_refl)).
  lia.
Defined.

(** C4, as the code has it.  When the peer accepts the connection and the
    first receive returns fewer than 2 bytes (none, or one), [connect()]
    closes the OS socket and raises [PyOrientConnectionPoolException]
    ("Server sent empty string"), the class its docstring announces.
    [PyOrientConnectionException] is what [connect()] raises only when the
    operating system reports an error: the connection is refused, or the
    receive of the handshake raises [socket.error] or times out. *)
Theorem connect_short_handshake
    (SUPPORTED_PROTOCOL : Z) (p : peer) (s : OrientSocket)
    (bs : bytes) (rest : list recv_event) :
  peer_refuses p = None ->
  peer_recvs p = Data bs :: rest ->
  (length bs < 2)%nat ->
  (exists s' : OrientSocket,
     connect SUPPORTED_PROTOCOL p s
     = Raise (PyOrientConnectionPoolException "Server sent empty string") s'
     /\ sock_closed (_socket s') = true)
  /\ (forall (p0 : peer) (s0 s1 : OrientSocket) (msg : string),
        connect SUPPORTED_PROTOCOL p0 s0
        = Raise (PyOrientConnectionException msg) s1 ->
        (exists refusal, peer_refuses p0 = Some refusal)
        \/ (peer_refuses p0 = None
            /\ (peer_recvs p0 = []
                \/ exists failure rest0,
                     peer_recvs p0 = RecvRaises failure :: rest0))).
Proof.
  intros Hacc Hrecvs Hshort. split.
  - unfold connect, socket_connect, socket_recv, FIELD_SHORT_bytes. simpl.
    rewrite Hacc. simpl. rewrite Hrecvs.
    destruct bs as [|b0 [|b1 bs]]; simpl in *; [| |lia];
      eexists; by split.
  - clear. intros p0 s0 s1 msg.
    unfold connect, socket_connect, socket_recv. simpl.
    destruct (peer_refuses p0) as [refusal|]; simpl.
    { intros _. left. by eexists. }
    intros Hraise. right. split; [done|].
    destruct (peer_recvs p0) as [|[data|failure] rest0]; simpl in Hraise.
    + by left.
    + destruct (length data <=? FIELD_SHORT_bytes)%nat.
      * destruct data as [|b0 [|b1 [|b2 more]]]; try done.
        simpl in Hraise. by destruct (SUPPORTED_PROTOCOL <? unpack_short b0 b1).
      * destruct (take FIELD_SHORT_bytes data) as [|b0 [|b1 [|b2 more]]];
          try done.
        simpl in Hraise. by destruct (SUPPORTED_PROTOCOL <? unpack_short b0 b1).
    + right. by eexists _, _.
Qed.

Lemma connect_short_handshake_witness :
  let p := mk_peer None [] [Data [Byte.x00]; Data []] [] in
  exists s' : OrientSocket,
    connect 39 p (__init__ PyNone "localhost" 2424)
    = Raise (PyOrientConnectionPoolException "Server sent empty string") s'
    /\ sock_closed (_socket s') = true.
Proof.
  intros p.
  apply (proj1 (connect_short_handshake 39 p (__init__ PyNone "localhost" 2424)
                  [Byte.x00] [Data []] eq_refl eq_refl ltac:(simpl; lia))).
Defined.

(** C4 as stated fails: a peer that sends one byte and closes makes
    [connect()] raise [PyOrientConnectionPoolException], which is not the
    [PyOrientConnectionException] that the transport raises for a lost
    connection. *)
Lemma connect_short_handshake_not_ConnectionError :
  let p := mk_peer None [] [Data [Byte.x00]; Data []] [] in
  exists (e : exn) (s' : OrientSocket),
    connect 39 p (__init__ PyNone "localhost" 2424) = Raise e s'
    /\ e = PyOrientConnectionPoolException "Server sent empty string"
    /\ is_ConnectionError e = false.
Proof.
  intros p. eexists. eexists.
  split; [vm_compute; reflexivity|]. by split.
Qed.

(** X21. [PyOrientConnectionException] is what [connect()] raises when
    the OS itself reports an error: the connection is refused, or the
    receive of the handshake raises [socket.error] (a receive that times out
    included).  On this path the [connected] flag is cleared. *)
Lemma connect_socket_error
    (SUPPORTED_PROTOCOL : Z) (p : peer) (s : OrientSocket) :
  (exists msg, peer_refuses p = Some msg)
  \/ (peer_refuses p = None
      /\ (peer_recvs p = [] \/ exists msg rest, peer_recvs p = RecvRaises msg :: rest)) ->
  exists (msg : string) (s' : OrientSocket),
    connect SUPPORTED_PROTOCOL p s = Raise (PyOrientConnectionException msg) s'
    /\ connected s' = false.
Proof.
  unfold connect, socket_connect, socket_recv. simpl.
  intros [[msg ->]|[-> [-> |(msg & rest & ->)]]]; simpl;
    eexists; eexists; by split.
Qed.

(** ** The [connected] flag and the recorded version *)

(** What one call of [connect] may do to the flag and the version. *)
Lemma connect_frame
    (SUPPORTED_PROTOCOL : Z) (p : peer) (s s' : OrientSocket) :
  final_state (connect SUPPORTED_PROTOCOL p s) = Some s' ->
  (connected s' = true /\ protocol s' <= SUPPORTED_PROTOCOL
   /\ -32768 <= protocol s' <= 32767)
  \/ connected s' = false
  \/ (connected s' = connected s /\ protocol s' = protocol s)
  \/ (connected s' = connected s /\ SUPPORTED_PROTOCOL < protocol s'
      /\ -32768 <= protocol s' <= 32767).
Proof.
  unfold connect, socket_connect. simpl.
  destruct (peer_refuses p) as [msg|]; simpl.
  { intros [= <-]. right. by left. }
  destruct (socket_recv _ _) as [_value sk2|e sk2|] eqn:Hrecv; [| |done].
  - destruct _value as [|b0 [|b1 [|b2 more]]]; simpl;
      try (intros [= <-]; right; right; left; by split).
    pose proof (unpack_short_range b0 b1) as Hrange.
    generalize dependent (unpack_short b0 b1). intros v Hrange.
    destruct (Z.ltb_spec SUPPORTED_PROTOCOL v);
      simpl; intros [= <-]; simpl.
    + right. right. right. split; [done|lia].
    + left. split; [done|lia].
  - unfold socket_recv in Hrecv. simpl in Hrecv.
    destruct (peer_recvs p) as [|[bs|msg] rest]; simpl in Hrecv.
    + injection Hrecv as <- <-. simpl. intros [= <-]. right. by left.
    + by destruct (_ <=? _)%nat.
    + injection Hrecv as <- <-. simpl. intros [= <-]. right. by left.
Qed.

(** [read] leaves the recorded version alone, and never sets the flag. *)
Lemma read_frame (n : Z) (s s' : OrientSocket) :
  final_state (read n s) = Some s' ->
  protocol s' = protocol s
  /\ (connected s' = connected s \/ connected s' = false).
Proof.
  remember (length (sock_selects (_socket s))) as m eqn:Hm.
  revert s Hm. induction m as [m IH] using lt_wf_ind. intros s Hm.
  rewrite read_step.
  destruct (socket_select (_socket s)) as [[ready err] sk|e sk|] eqn:Hsel.
  - destruct ready.
    + unfold read_ready. destruct (n <? 0).
      * intros [= <-]. split; [done|by left].
      * destruct (recv_loop _ _ _ _); simpl; [| |done];
          intros [= <-]; (split; [done|by left]).
    + destruct err.
      * intros [= <-]. split; [done|by left].
      * intros Hfin.
        apply (IH (length (sock_selects sk))) in Hfin; [done| |done].
        unfold socket_select in Hsel.
        destruct (sock_closed (_socket s)); [done|].
        destruct (sock_selects (_socket s)) as [|[r e|msg] rest]; try done.
        injection Hsel as _ _ <-. subst m. simpl. lia.
  - unfold read_except.
    destruct e; intros [= <-]; (split; [done|]); (by left) || (by right).
  - done.
Qed.

(** C3, as the code has it.  In every state reachable from the constructor
    through [connect], [get_connection], [read], [write] and [close],
    [connected = true] implies that the recorded protocol version is a signed
    16-bit value ([-32768 .. 32767]); no lower bound of 0 holds.  When
    [connect] is only called on an object that is not connected (as
    [get_connection] calls it), [connected = true] also implies that the
    recorded version does not exceed [SUPPORTED_PROTOCOL]. *)
Theorem connected_version_invariant
    (SUPPORTED_PROTOCOL : Z) (guarded : bool) (s : OrientSocket) :
  reachable SUPPORTED_PROTOCOL guarded s ->
  connected s = true ->
  -32768 <= protocol s <= 32767
  /\ (guarded = true -> protocol s <= SUPPORTED_PROTOCOL).
Proof.
  assert (Hconnect : forall p s0 s1,
    (connected s0 = true ->
       -32768 <= protocol s0 <= 32767
       /\ (guarded = true -> protocol s0 <= SUPPORTED_PROTOCOL)) ->
    (guarded = true -> connected s0 = false) ->
    final_state (connect SUPPORTED_PROTOCOL p s0) = Some s1 ->
    connected s1 = true ->
    -32768 <= protocol s1 <= 32767
    /\ (guarded = true -> protocol s1 <= SUPPORTED_PROTOCOL)).
  { intros p s0 s1 IH Hguard Hfin Hc.
    destruct (connect_frame _ _ _ _ Hfin)
      as [(_ & Hle & Hrange)|[Hoff|[[Hsame Hver]|(Hsame & _ & Hrange)]]].
    - done.
    - congruence.
    - rewrite Hver. apply IH. congruence.
    - split; [done|]. intros Hg. specialize (Hguard Hg). congruence. }
  induction 1 as [ser h po|p s s' _ IH Hguard Hfin|p s s' _ IH Hfin
                  |n s s' _ IH Hfin|buff s s' _ IH Hfin|s s' _ IH Hfin];
    intros Hc.
  - done.
  - by apply (Hconnect p s s').
  - unfold get_connection in Hfin.
    destruct (connected s) eqn:Hcs; simpl in Hfin.
    + injection Hfin as <-. by apply IH.
    + apply (Hconnect p s s'); [congruence|done| |done].
      by destruct (connect SUPPORTED_PROTOCOL p s).
  - apply read_frame in Hfin as [Hver [Hsame|Hoff]]; [|congruence].
    rewrite Hver. apply IH. congruence.
  - unfold write in Hfin.
    destruct (socket_send buff (_socket s)); simpl in Hfin; [| |done];
      injection Hfin as <-; by apply IH.
  - by injection Hfin as <-.
Qed.

Lemma connected_version_invariant_witness :
  let p := mk_peer None [] [Data [Byte.x00; Byte.x27]] [] in
  let s := match connect 39 p (__init__ PyNone "localhost" 2424) with
           | Return _ s' => s'
           | _ => __init__ PyNone "localhost" 2424
           end in
  -32768 <= protocol s <= 32767 /\ (true = true -> protocol s <= 39).
Proof.
  intros p s.
  apply (connected_version_invariant 39 true s).
  - apply (reach_connect 39 true p (__init__ PyNone "localhost" 2424) s).
    + apply reach_init.
    + reflexivity.
    + reflexivity.
  - reflexivity.
Defined.

(** C3 as stated fails: a peer whose handshake is [0xFF 0xFF] (the version
    -1) passes the only check there is, [protocol > SUPPORTED_PROTOCOL], so
    that [connect()] on a fresh object returns with [connected = true] and a
    negative recorded version.  The same holds for every supported maximum
    that is not below -1. *)
Lemma connect_accepts_negative_version :
  let p := mk_peer None [] [Data [Byte.xff; Byte.xff]] [] in
  exists s' : OrientSocket,
    connect 39 p (__init__ PyNone "localhost" 2424) = Return tt s'
    /\ reachable 39 true s'
    /\ connected s' = true
    /\ protocol s' = -1
    /\ ~ (protocol s' >= 0).
Proof.
  intros p. eexists.
  split; [vm_compute; reflexivity|].
  split.
  - apply (reach_connect 39 true p (__init__ PyNone "localhost" 2424)).
    + apply reach_init.
    + reflexivity.
    + reflexivity.
  - split; [reflexivity|]. split; [reflexivity|]. simpl. lia.
Qed.

(** ** Closing *)

(** C8. From any state, [close()] returns without raising and leaves
    [connected = false], [port = 0], [protocol = -1], [host = ''] and
    [session_id = -1], with the OS socket closed; the auth token is not
    among the fields it resets.  Calling it again returns again and yields
    the same state. *)
Theorem close_resets_and_is_idempotent (s : OrientSocket) :
  exists s' : OrientSocket,
    close s = Return tt s'
    /\ connected s' = false
    /\ port s' = 0
    /\ protocol s' = -1
    /\ host s' = ""
    /\ session_id s' = -1
    /\ sock_closed (_socket s') = true
    /\ auth_token s' = auth_token s
    /\ close s' = Return tt s'.
Proof.
  eexists. split; [reflexivity|]. by repeat split.
Qed.

(** * Properties of the facade *)

(** ** The message factory *)

(** Every class of [_Messages] names a module: the truth test of
    [self._Messages[command]] never fails on a registered name. *)
Lemma _Messages_module_nonempty (command module : string) :
  OrientDB._Messages !! command = Some module -> String.eqb module "" = false.
Proof.
  intros Hlookup.
  assert (Hall : map_Forall (fun _ m => String.eqb m "" = false) OrientDB._Messages).
  { apply map_Forall_to_list. vm_compute. repeat constructor. }
  exact (Hall _ _ Hlookup).
Qed.

(** A registered name resolves to its class, bound with the session token
    in force, and the facade is left as it was. *)
Lemma get_message_registered (command module : string) (o : OrientDB) :
  OrientDB._Messages !! command = Some module ->
  OrientDB.get_message (Some command) o
  = Return (Some (mk_Message module command (OrientDB.session_token o))) o.
Proof.
  intros Hlookup. unfold OrientDB.get_message.
  by rewrite Hlookup, (_Messages_module_nonempty _ _ Hlookup).
Qed.

(** X16. A name that is not a key of [_Messages] is refused with
    [PyOrientBadMethodCallException] (the [KeyError] of the lookup, caught
    and replaced) before any module is imported or message class called;
    the facade and its connection are as they were. *)
Lemma get_message_unknown (command : string) (o : OrientDB) :
  OrientDB._Messages !! command = None ->
  exists msg : string,
    OrientDB.get_message (Some command) o
    = Raise (PyOrientBadMethodCallException msg) o.
Proof.
  intros Hlookup. unfold OrientDB.get_message. rewrite Hlookup. by eexists.
Qed.


(** C6. Whatever default token the facade holds (one set with
    [set_session_token], or none), when the connection holds a non-empty
    auth token, the message that [get_message] resolves for a registered
    name is bound with the token of the connection. *)
Theorem get_message_binds_connection_token
    (conn : OrientSocket) (default_token : option bytes)
    (command module : string) :
  OrientDB._Messages !! command = Some module ->
  auth_token conn <> [] ->
  exists m : Message,
    OrientDB.get_message (Some command) (mk_OrientDB conn default_token)
    = Return (Some m) (mk_OrientDB conn default_token)
    /\ msg_class m = command
    /\ msg_token m = Some (auth_token conn).
Proof.
  intros Hlookup Htoken.
  rewrite (get_message_registered _ _ _ Hlookup).
  eexists. split; [reflexivity|]. split; [reflexivity|].
  unfold OrientDB.session_token. simpl.
  by destruct (auth_token conn).
Qed.

Lemma get_message_binds_connection_token_witness :
  let conn := set_auth_token [Byte.x02] (__init__ PyNone "localhost" 2424) in
  exists m : Message,
    OrientDB.get_message (Some "DbOpenMessage") (mk_OrientDB conn (Some [Byte.x01]))
    = Return (Some m) (mk_OrientDB conn (Some [Byte.x01]))
    /\ msg_class m = "DbOpenMessage"
    /\ msg_token m = Some [Byte.x02].
Proof.
  intros conn.
  apply (get_message_binds_connection_token conn (Some [Byte.x01])
           "DbOpenMessage" "pyorient.messages.database").
  - vm_compute. reflexivity.
  - discriminate.
Defined.

(** C7, as the code has it.  After [set_session_token(t)] on the facade, the
    message that [get_message] resolves for a registered name carries [t]
    only while the connection holds no auth token; when the connection
    holds one, that one is injected. *)
Theorem get_message_token_after_set_session_token
    (o : OrientDB) (t : bytes) (command module : string) :
  OrientDB._Messages !! command = Some module ->
  exists m : Message,
    OrientDB.get_message (Some command) (OrientDB.set_session_token t o)
    = Return (Some m) (OrientDB.set_session_token t o)
    /\ msg_token m = match auth_token (_connection o) with
                     | [] => Some t
                     | tok => Some tok
                     end.
Proof.
  intros Hlookup.
  rewrite (get_message_registered _ _ _ Hlookup).
  eexists. split; reflexivity.
Qed.

Lemma get_message_token_after_set_session_token_witness :
  let o := OrientDB.__init__ PyNone (inl "localhost") 2424 in
  exists m : Message,
    OrientDB.get_message (Some "CommandMessage")
      (OrientDB.set_session_token [Byte.x01] o)
    = Return (Some m) (OrientDB.set_session_token [Byte.x01] o)
    /\ msg_token m = Some [Byte.x01].
Proof.
  intros o.
  apply (get_message_token_after_set_session_token o [Byte.x01]
           "CommandMessage" "pyorient.messages.commands").
  vm_compute. reflexivity.
Defined.

(** C7 as stated fails: with the token [b'\x01'] set on the facade and the
    token [b'\x02'] held by the connection, the resolved message carries
    [b'\x02']. *)
Lemma explicit_token_does_not_supersede :
  let conn := set_auth_token [Byte.x02] (__init__ PyNone "localhost" 2424) in
  let o := OrientDB.set_session_token [Byte.x01]
             (OrientDB.__init__ PyNone (inr conn) 2424) in
  exists m : Message,
    OrientDB.get_message (Some "CommandMessage") o = Return (Some m) o
    /\ _auth_token o = Some [Byte.x01]
    /\ msg_token m = Some [Byte.x02]
    /\ msg_token m <> Some [Byte.x01].
Proof.
  intros conn o. eexists.
  split; [vm_compute; reflexivity|].
  split; [reflexivity|]. split; [reflexivity|]. discriminate.
Qed.

(** C10. [set_session_token(t)] stores [t] as the default of the facade
    and leaves the connection alone, while [get_session_token()] reads the
    auth token of the connection: after [set_session_token(t)],
    [get_session_token()] returns what it returned before, the empty byte
    string on a fresh client, and returns [t] only if the connection
    happened to hold [t] already. *)
Theorem set_get_session_token_no_round_trip (t : bytes) (o : OrientDB) :
  OrientDB.get_session_token (OrientDB.set_session_token t o)
  = auth_token (_connection o)
  /\ OrientDB.get_session_token (OrientDB.set_session_token t o)
     = OrientDB.get_session_token o
  /\ _auth_token (OrientDB.set_session_token t o) = Some t
  /\ (forall (ser : pyval) (host : string) (port : Z),
        OrientDB.get_session_token
          (OrientDB.set_session_token t (OrientDB.__init__ ser (inl host) port))
        = [])
  /\ (OrientDB.get_session_token (OrientDB.set_session_token t o) = t
      <-> auth_token (_connection o) = t).
Proof. by repeat split. Qed.

(** ** The operations of the facade *)

Section FacadeResults.

Context `{MessageCapability}.
Variables QUERY_ASYNC QUERY_CMD QUERY_GREMLIN QUERY_SYNC QUERY_SCRIPT : pyval.
Variables SERIALIZATION_DOCUMENT2CSV DB_TYPE_DOCUMENT STORAGE_TYPE_PLOCAL : pyval.

Local Abbreviation invoke :=
  (OrientDB.invoke QUERY_ASYNC QUERY_CMD QUERY_GREMLIN QUERY_SYNC QUERY_SCRIPT
     SERIALIZATION_DOCUMENT2CSV DB_TYPE_DOCUMENT STORAGE_TYPE_PLOCAL).




Local Abbreviation message_args :=
  (OrientDB.message_args QUERY_ASYNC QUERY_CMD QUERY_GREMLIN QUERY_SYNC
     QUERY_SCRIPT SERIALIZATION_DOCUMENT2CSV DB_TYPE_DOCUMENT
     STORAGE_TYPE_PLOCAL).




End FacadeResults.



(** * Further properties of the transport *)

(** ** More on [read] *)

(** After idle waits, a wait that reports the socket readable hands over to
    the receive loop, whatever it reports about errors. *)
Lemma read_when_readable (n : Z) (s : OrientSocket) (idle : nat)
    (in_error : bool) (later : list select_event) :
  sock_closed (_socket s) = false ->
  sock_selects (_socket s)
    = replicate idle (SelectReturns false false)
        ++ SelectReturns true in_error :: later ->
  read n s = read_ready n (set_socket (with_selects later (_socket s)) s).
Proof.
  intros Hopen Hsel.
  rewrite (read_skips_idle_rounds n idle s _ Hopen Hsel).
  rewrite read_step. simpl _socket.
  by rewrite (select_ready_round _ in_error later).
Qed.

(** A delivery that holds more than what is still missing is cut: the loop
    takes what it needs and the surplus stays in the stream. *)
Lemma recv_loop_surplus (sk : socket) (buf d surplus : bytes) (off : nat)
    (rest : list recv_event) :
  sock_closed sk = false ->
  sock_recvs sk = Data (d ++ surplus) :: rest ->
  d <> [] -> surplus <> [] ->
  (off + length d <= length buf)%nat ->
  recv_loop sk buf off (length d)
  = Return (write_at off d buf) (with_recvs (Data surplus :: rest) sk).
Proof.
  intros Hopen Hrecvs Hd Hsurplus Hfit.
  destruct d as [|b d']; [done|]. simpl length.
  rewrite recv_loop_step. unfold socket_recv_into, socket_recv.
  rewrite Hopen, Hrecvs.
  destruct (Nat.leb_spec (length ((b :: d') ++ surplus)) (S (length d')))
    as [Hle|_].
  { rewrite length_app in Hle. destruct surplus; [done|]. simpl in Hle. lia. }
  change (S (length d')) with (length (b :: d')).
  rewrite take_app_length, drop_app_length. simpl length. cbv iota beta.
  rewrite Nat.sub_diag. by simp recv_loop.
Qed.

(** X1. Whatever the peer and the operating system do, a value that
    [read(n)] returns has exactly [n] bytes. *)
Theorem read_returns_n_bytes (n : Z) (s s' : OrientSocket) (b : bytes) :
  read n s = Return b s' -> Z.of_nat (length b) = n.
Proof. apply read_never_short. Qed.

Lemma read_returns_n_bytes_witness :
  let sk := mk_socket false (Some 30) [SelectReturns true true]
              [Data [Byte.x01; Byte.x02; Byte.x03; Byte.x04]] [] [] in
  let s := set_socket sk (__init__ PyNone "localhost" 2424) in
  Z.of_nat (length [Byte.x01; Byte.x02; Byte.x03]) = 3.
Proof.
  intros sk s.
  eapply (read_returns_n_bytes 3 s).
  vm_compute. reflexivity.
Defined.

(** X2. When the stream holds more than [read(n)] asks for, [read]
    returns the first [n] bytes and the bytes after them stay in the stream:
    with the chunks [chunks] and then a delivery [d ++ surplus], a read of
    [len(chunks) + len(d)] bytes returns the chunks followed by [d] and leaves
    [surplus] as the next delivery. *)
Theorem read_leaves_the_surplus
    (n : Z) (s : OrientSocket) (idle : nat) (in_error : bool)
    (later : list select_event) (chunks : list bytes) (d surplus : bytes)
    (rest : list recv_event) :
  sock_closed (_socket s) = false ->
  sock_selects (_socket s)
    = replicate idle (SelectReturns false false)
        ++ SelectReturns true in_error :: later ->
  sock_recvs (_socket s) = map Data chunks ++ Data (d ++ surplus) :: rest ->
  Forall (fun c => c <> []) chunks ->
  d <> [] -> surplus <> [] ->
  n = Z.of_nat (length (concat chunks) + length d) ->
  exists s' : OrientSocket,
    read n s = Return (concat chunks ++ d) s'
    /\ sock_recvs (_socket s') = Data surplus :: rest
    /\ connected s' = connected s.
Proof.
  intros Hopen Hsel Hrecvs Hne Hd Hsurplus ->.
  rewrite (read_when_readable _ s idle in_error later Hopen Hsel).
  unfold read_ready.
  destruct (Z.ltb_spec (Z.of_nat (length (concat chunks) + length d)) 0)
    as [?|_]; [lia|].
  rewrite Nat2Z.id. simpl _socket.
  rewrite (recv_loop_prefix chunks _ _ 0%nat _ (Data (d ++ surplus) :: rest));
    [|done|done|done|lia|rewrite length_replicate; lia].
  replace (length (concat chunks) + length d - length (concat chunks))%nat
    with (length d) by lia.
  rewrite (recv_loop_surplus _ _ d surplus _ rest); [|done|done|done|done|].
  - eexists. split.
    + f_equal. unfold write_at. simpl.
      rewrite take_app_length.
      rewrite drop_ge
        by (rewrite length_app, length_drop, length_replicate; lia).
      by rewrite app_nil_r.
    + by split.
  - rewrite !length_app, length_drop, length_replicate. simpl. lia.
Qed.

Lemma read_leaves_the_surplus_witness :
  let sk := mk_socket false (Some 30) [SelectReturns true false]
              [Data [Byte.x01]; Data [Byte.x02; Byte.x03; Byte.x04]] [] [] in
  let s := set_socket sk (__init__ PyNone "localhost" 2424) in
  exists s' : OrientSocket,
    read 3 s = Return [Byte.x01; Byte.x02; Byte.x03] s'
    /\ sock_recvs (_socket s') = [Data [Byte.x04]]
    /\ connected s' = connected s.
Proof.
  intros sk s.
  apply (read_leaves_the_surplus 3 s 0 false [] [[Byte.x01]]
           [Byte.x02; Byte.x03] [Byte.x04] []);
    try reflexivity; try discriminate.
  repeat constructor. discriminate.
Defined.

(** X3. Two frames that arrive in one delivery are read one after the
    other: when the stream delivers [d1 ++ d2] at once, [read(len(d1))]
    returns [d1] and the next [read(len(d2))] returns [d2]; no byte is lost
    or read twice. *)
Theorem consecutive_reads_split_a_delivery
    (s : OrientSocket) (idle1 idle2 : nat) (err1 err2 : bool)
    (later : list select_event) (d1 d2 : bytes) (rest : list recv_event) :
  sock_closed (_socket s) = false ->
  sock_selects (_socket s)
    = replicate idle1 (SelectReturns false false)
        ++ SelectReturns true err1
        :: replicate idle2 (SelectReturns false false)
        ++ SelectReturns true err2 :: later ->
  sock_recvs (_socket s) = Data (d1 ++ d2) :: rest ->
  d1 <> [] -> d2 <> [] ->
  exists s1 s2 : OrientSocket,
    read (Z.of_nat (length d1)) s = Return d1 s1
    /\ read (Z.of_nat (length d2)) s1 = Return d2 s2
    /\ sock_recvs (_socket s2) = rest
    /\ sock_selects (_socket s2) = later.
Proof.
  intros Hopen Hsel Hrecvs Hd1 Hd2.
  assert (Hfill : forall d : bytes,
            write_at 0 d (replicate (length d) Byte.x00) = d).
  { intros d. unfold write_at. simpl.
    rewrite drop_ge by (rewrite length_replicate; lia). apply app_nil_r. }
  eexists. eexists. split; [|split].
  - rewrite (read_when_readable _ s idle1 err1 _ Hopen Hsel).
    unfold read_ready.
    destruct (Z.ltb_spec (Z.of_nat (length d1)) 0) as [?|_]; [lia|].
    rewrite Nat2Z.id. simpl _socket.
    rewrite (recv_loop_surplus _ _ d1 d2 0%nat rest);
      [|done|done|done|done|rewrite length_replicate; lia].
    by rewrite Hfill.
  - rewrite (read_when_readable _ _ idle2 err2 later); [|done|done].
    unfold read_ready.
    destruct (Z.ltb_spec (Z.of_nat (length d2)) 0) as [?|_]; [lia|].
    rewrite Nat2Z.id. simpl _socket.
    replace (length d2) with (length (concat [d2]))
      by (simpl; by rewrite app_nil_r).
    rewrite (recv_loop_chunks [d2] _ _ 0%nat rest);
      [|done|done|by repeat constructor|rewrite length_replicate; lia].
    simpl. rewrite app_nil_r.
    rewrite drop_ge by (rewrite length_replicate; lia).
    by rewrite app_nil_r.
  - by split.
Qed.

Lemma consecutive_reads_split_a_delivery_witness :
  let sk := mk_socket false (Some 30)
              [SelectReturns true false; SelectReturns false false;
               SelectReturns true false]
              [Data [Byte.x00; Byte.x02; Byte.x0a; Byte.x0b]] [] [] in
  let s := set_socket sk (__init__ PyNone "localhost" 2424) in
  exists s1 s2 : OrientSocket,
    read 2 s = Return [Byte.x00; Byte.x02] s1
    /\ read 2 s1 = Return [Byte.x0a; Byte.x0b] s2
    /\ sock_recvs (_socket s2) = []
    /\ sock_selects (_socket s2) = [].
Proof.
  intros sk s.
  apply (consecutive_reads_split_a_delivery s 0 1 false false []
           [Byte.x00; Byte.x02] [Byte.x0a; Byte.x0b] []);
    try reflexivity; discriminate.
Defined.

(** X4. When the wait itself fails, [read] re-raises the [select.error] as
    it is (not as a [PyOrientConnectionException]) and marks the object
    disconnected; it has not received anything and has not closed the OS
    socket. *)
Theorem read_select_error
    (n : Z) (s : OrientSocket) (idle : nat) (msg : string)
    (later : list select_event) :
  sock_closed (_socket s) = false ->
  sock_selects (_socket s)
    = replicate idle (SelectReturns false false) ++ SelectRaises msg :: later ->
  exists s' : OrientSocket,
    read n s = Raise (select_error msg) s'
    /\ connected s' = false
    /\ sock_closed (_socket s') = false
    /\ sock_recvs (_socket s') = sock_recvs (_socket s).
Proof.
  intros Hopen Hsel.
  rewrite (read_skips_idle_rounds n idle s _ Hopen Hsel).
  rewrite read_step. unfold socket_select. simpl. rewrite Hopen. simpl.
  eexists. by repeat split.
Qed.

Lemma read_select_error_witness :
  let sk := mk_socket false (Some 30)
              [SelectReturns false false; SelectRaises "Interrupted system call"]
              [Data [Byte.x01]] [] [] in
  let s := set_connected true (set_socket sk (__init__ PyNone "localhost" 2424)) in
  exists s' : OrientSocket,
    read 1 s = Raise (select_error "Interrupted system call") s'
    /\ connected s' = false
    /\ sock_closed (_socket s') = false
    /\ sock_recvs (_socket s') = sock_recvs (_socket s).
Proof.
  intros sk s.
  apply (read_select_error 1 s 1 "Interrupted system call" []); reflexivity.
Defined.

(** X5. When the wait reports the socket in error and not readable, [read]
    closes the OS socket and raises [PyOrientConnectionException]
    ("Socket error") without receiving anything; the [connected] flag is
    left as it was. *)
Theorem read_socket_in_error
    (n : Z) (s : OrientSocket) (idle : nat) (later : list select_event) :
  sock_closed (_socket s) = false ->
  sock_selects (_socket s)
    = replicate idle (SelectReturns false false)
        ++ SelectReturns false true :: later ->
  exists s' : OrientSocket,
    read n s = Raise (PyOrientConnectionException "Socket error") s'
    /\ sock_closed (_socket s') = true
    /\ sock_recvs (_socket s') = sock_recvs (_socket s)
    /\ connected s' = connected s.
Proof.
  intros Hopen Hsel.
  rewrite (read_skips_idle_rounds n idle s _ Hopen Hsel).
  rewrite read_step. unfold socket_select. simpl. rewrite Hopen. simpl.
  eexists. by repeat split.
Qed.

Lemma read_socket_in_error_witness :
  let sk := mk_socket false (Some 30) [SelectReturns false true]
              [Data [Byte.x01]] [] [] in
  let s := set_connected true (set_socket sk (__init__ PyNone "localhost" 2424)) in
  exists s' : OrientSocket,
    read 1 s = Raise (PyOrientConnectionException "Socket error") s'
    /\ sock_closed (_socket s') = true
    /\ sock_recvs (_socket s') = sock_recvs (_socket s)
    /\ connected s' = connected s.
Proof.
  intros sk s.
  apply (read_socket_in_error 1 s 0 []); reflexivity.
Defined.

(** X6. A read of no bytes still waits for the socket to be readable, then
    returns the empty byte string; a negative length is refused with
    [ValueError] at that point.  In both cases nothing is received from the
    stream. *)
Theorem read_nothing
    (n : Z) (s : OrientSocket) (idle : nat) (in_error : bool)
    (later : list select_event) :
  n <= 0 ->
  sock_closed (_socket s) = false ->
  sock_selects (_socket s)
    = replicate idle (SelectReturns false false)
        ++ SelectReturns true in_error :: later ->
  exists s' : OrientSocket,
    (if n =? 0 then read n s = Return [] s'
     else read n s = Raise (ValueError "negative count") s')
    /\ sock_recvs (_socket s') = sock_recvs (_socket s)
    /\ sock_closed (_socket s') = false
    /\ connected s' = connected s.
Proof.
  intros Hn Hopen Hsel.
  rewrite (read_when_readable _ s idle in_error later Hopen Hsel).
  unfold read_ready.
  destruct (Z.eqb_spec n 0) as [->|Hne].
  - simpl. simp recv_loop. eexists. by repeat split.
  - destruct (Z.ltb_spec n 0) as [_|?]; [|lia].
    eexists. by repeat split.
Qed.

Lemma read_nothing_witness :
  let sk := mk_socket false (Some 30) [SelectReturns true false]
              [Data [Byte.x01]] [] [] in
  let s := set_socket sk (__init__ PyNone "localhost" 2424) in
  exists s' : OrientSocket,
    read 0 s = Return [] s'
    /\ sock_recvs (_socket s') = sock_recvs (_socket s)
    /\ sock_closed (_socket s') = false
    /\ connected s' = connected s.
Proof.
  intros sk s.
  apply (read_nothing 0 s 0 false []); [lia|reflexivity|reflexivity].
Defined.

(** X7. When a receive raises [socket.error] before the buffer is full (a
    receive that times out with no data included), [read] lets that error
    through as it is: what was received so far is dropped, the OS socket is
    not closed and the [connected] flag is left as it was. *)
Theorem read_receive_error
    (n : Z) (s : OrientSocket) (idle : nat) (in_error : bool)
    (later : list select_event) (chunks : list bytes)
    (tail : list recv_event) (msg : string) :
  sock_closed (_socket s) = false ->
  sock_selects (_socket s)
    = replicate idle (SelectReturns false false)
        ++ SelectReturns true in_error :: later ->
  sock_recvs (_socket s) = map Data chunks ++ tail ->
  (tail = [] /\ msg = "timed out") \/ (exists rest, tail = RecvRaises msg :: rest) ->
  Forall (fun c => c <> []) chunks ->
  Z.of_nat (length (concat chunks)) < n ->
  exists s' : OrientSocket,
    read n s = Raise (socket_error msg) s'
    /\ sock_closed (_socket s') = false
    /\ connected s' = connected s.
Proof.
  intros Hopen Hsel Hrecvs Htail Hne Hshort.
  rewrite (read_when_readable _ s idle in_error later Hopen Hsel).
  unfold read_ready.
  destruct (Z.ltb_spec n 0) as [?|_]; [lia|].
  simpl _socket.
  rewrite (recv_loop_prefix chunks _ _ 0%nat _ tail);
    [|done|done|done|lia|rewrite length_replicate; lia].
  destruct (Z.to_nat n - length (concat chunks))%nat as [|r] eqn:Hleft; [lia|].
  rewrite recv_loop_step. unfold socket_recv_into, socket_recv. simpl.
  rewrite Hopen.
  destruct Htail as [[-> ->]|[rest ->]]; simpl; eexists; by repeat split.
Qed.

Lemma read_receive_error_witness :
  let sk := mk_socket false (Some 30) [SelectReturns true false]
              [Data [Byte.x01]; RecvRaises "Connection reset by peer"] [] [] in
  let s := set_connected true (set_socket sk (__init__ PyNone "localhost" 2424)) in
  exists s' : OrientSocket,
    read 4 s = Raise (socket_error "Connection reset by peer") s'
    /\ sock_closed (_socket s') = false
    /\ connected s' = connected s.
Proof.
  intros sk s.
  apply (read_receive_error 4 s 0 false [] [[Byte.x01]]
           [RecvRaises "Connection reset by peer"] "Connection reset by peer");
    try reflexivity.
  - right. by eexists.
  - repeat constructor. discriminate.
Defined.

(** [read] changes nothing of the object but its OS socket and, to false
    only, its [connected] flag. *)
Lemma read_changes_socket_and_flag (n : Z) (s s' : OrientSocket) :
  final_state (read n s) = Some s' ->
  exists (sk : socket) (b : bool),
    s' = set_connected b (set_socket sk s) /\ (b = connected s \/ b = false).
Proof.
  assert (Hsame : forall sk, set_socket sk s
                             = set_connected (connected s) (set_socket sk s))
    by done.
  remember (length (sock_selects (_socket s))) as m eqn:Hm.
  revert s Hsame Hm. induction m as [m IH] using lt_wf_ind. intros s Hsame Hm.
  rewrite read_step.
  destruct (socket_select (_socket s)) as [[ready err] sk|e sk|] eqn:Hsel.
  - destruct ready.
    + unfold read_ready. destruct (n <? 0).
      * intros [= <-]. exists sk, (connected s). split; [done|by left].
      * destruct (recv_loop _ _ _ _) as [b sk'|e sk'|]; simpl; [| |done];
          intros [= <-]; exists sk', (connected s); (split; [done|by left]).
    + destruct err.
      * intros [= <-]. exists (socket_close sk), (connected s).
        split; [done|by left].
      * intros Hfin.
        apply (IH (length (sock_selects sk))) in Hfin as (sk' & b & -> & Hb);
          [by exists sk', b| |done|done].
        unfold socket_select in Hsel.
        destruct (sock_closed (_socket s)); [done|].
        destruct (sock_selects (_socket s)) as [|[r e|msg] rest]; try done.
        injection Hsel as _ _ <-. subst m. simpl. lia.
  - unfold read_except.
    destruct e; intros [= <-];
      (by exists sk, (connected s); split; [|left])
      || (by exists sk, false; split; [|right]).
  - done.
Qed.

(** X8. However it ends, [read] leaves the host, the port, the recorded
    protocol version, the session id, the auth token, the open database,
    the serialization type and the transaction flag as they were, and it
    never turns the [connected] flag on. *)
Theorem read_keeps_the_session (n : Z) (s s' : OrientSocket) :
  final_state (read n s) = Some s' ->
  host s' = host s
  /\ port s' = port s
  /\ protocol s' = protocol s
  /\ session_id s' = session_id s
  /\ auth_token s' = auth_token s
  /\ db_opened s' = db_opened s
  /\ serialization_type s' = serialization_type s
  /\ in_transaction s' = in_transaction s
  /\ (connected s' = true -> connected s = true).
Proof.
  intros Hfin.
  apply read_changes_socket_and_flag in Hfin as (sk & b & -> & Hb).
  repeat split; try reflexivity.
  simpl. destruct Hb; congruence.
Qed.

Lemma read_keeps_the_session_witness :
  let sk := mk_socket false (Some 30) [SelectReturns true false]
              [Data [Byte.x01]; Data []] [] [] in
  let s := set_auth_token [Byte.x07]
             (set_connected true (set_socket sk (__init__ PyNone "localhost" 2424))) in
  let s' := set_socket (socket_close (with_recvs [] (with_selects [] sk))) s in
  host s' = host s
  /\ port s' = port s
  /\ protocol s' = protocol s
  /\ session_id s' = session_id s
  /\ auth_token s' = auth_token s
  /\ db_opened s' = db_opened s
  /\ serialization_type s' = serialization_type s
  /\ in_transaction s' = in_transaction s
  /\ (connected s' = true -> connected s = true).
Proof.
  intros sk s s'.
  apply (read_keeps_the_session 2 s s').
  vm_compute. reflexivity.
Defined.

(** ** More on [connect], [get_connection], [write] and [close] *)

(** X9. A handshake consumes exactly two bytes of the stream: when the
    version arrives together with data, [connect()] takes the version and
    the first [read] gets the data that followed it. *)
Theorem connect_then_read
    (SUPPORTED_PROTOCOL : Z) (p : peer) (s : OrientSocket)
    (b0 b1 : Byte.byte) (payload : bytes) (rest : list recv_event)
    (idle : nat) (in_error : bool) (later : list select_event) :
  peer_refuses p = None ->
  peer_recvs p = Data (b0 :: b1 :: payload) :: rest ->
  peer_selects p
    = replicate idle (SelectReturns false false)
        ++ SelectReturns true in_error :: later ->
  payload <> [] ->
  unpack_short b0 b1 <= SUPPORTED_PROTOCOL ->
  exists s1 s2 : OrientSocket,
    connect SUPPORTED_PROTOCOL p s = Return tt s1
    /\ read (Z.of_nat (length payload)) s1 = Return payload s2
    /\ sock_recvs (_socket s2) = rest
    /\ connected s2 = true
    /\ protocol s2 = unpack_short b0 b1.
Proof.
  intros Hacc Hrecvs Hsel Hpayload Hv.
  eexists. eexists. split; [|split].
  - unfold connect, socket_connect, socket_recv, FIELD_SHORT_bytes. simpl.
    rewrite Hacc. simpl. rewrite Hrecvs.
    destruct payload as [|b2 payload]; [done|]. simpl.
    destruct (Z.ltb_spec SUPPORTED_PROTOCOL (unpack_short b0 b1)) as [?|_];
      [lia|]. reflexivity.
  - rewrite (read_when_readable _ _ idle in_error later); [|done|done].
    unfold read_ready.
    destruct (Z.ltb_spec (Z.of_nat (length payload)) 0) as [?|_]; [lia|].
    rewrite Nat2Z.id. simpl _socket.
    replace (length payload) with (length (concat [payload]))
      by (simpl; by rewrite app_nil_r).
    rewrite (recv_loop_chunks [payload] _ _ 0%nat rest);
      [|done|done|by repeat constructor|rewrite length_replicate; lia].
    simpl. rewrite app_nil_r.
    rewrite drop_ge by (rewrite length_replicate; lia).
    by rewrite app_nil_r.
  - by repeat split.
Qed.

Lemma connect_then_read_witness :
  let p := mk_peer None [SelectReturns true false]
             [Data [Byte.x00; Byte.x27; Byte.x0a; Byte.x0b]] [] in
  exists s1 s2 : OrientSocket,
    connect 39 p (__init__ PyNone "localhost" 2424) = Return tt s1
    /\ read 2 s1 = Return [Byte.x0a; Byte.x0b] s2
    /\ sock_recvs (_socket s2) = []
    /\ connected s2 = true
    /\ protocol s2 = 39.
Proof.
  intros p.
  apply (connect_then_read 39 p (__init__ PyNone "localhost" 2424)
           Byte.x00 Byte.x27 [Byte.x0a; Byte.x0b] [] 0 false []);
    try reflexivity; try discriminate.
Defined.



(** X11. After [close()] the object cannot be used on its old socket:
    [read] and [write] raise without touching the stream and leave the
    object as [close()] left it, whatever the stream still holds; the
    [connected] flag is false, so that only a new handshake through
    [get_connection] makes the object usable again. *)
Theorem closed_connection_is_unusable
    (SUPPORTED_PROTOCOL : Z) (s : OrientSocket) (n : Z) (buff : bytes) :
  exists s' : OrientSocket,
    close s = Return tt s'
    /\ (exists e : exn, read n s' = Raise e s')
    /\ (exists e : exn, write buff s' = Raise e s')
    /\ forall p : peer,
         get_connection SUPPORTED_PROTOCOL p s'
         = match connect SUPPORTED_PROTOCOL p s' with
           | Return _ s'' => Return (_socket s'') s''
           | Raise e s'' => Raise e s''
           | Hang => Hang
           end.
Proof.
  eexists. split; [reflexivity|]. split; [|split].
  - rewrite read_step. unfold socket_select. simpl.
    eexists. unfold read_except. reflexivity.
  - unfold write, socket_send. simpl. eexists. reflexivity.
  - reflexivity.
Qed.

(** X12. [write] is one [send]: it returns the number of bytes the OS
    took, which can be less than the length of the buffer, sends nothing
    more, and changes nothing of the object but the state of its OS
    socket. *)
Theorem write_is_one_send
    (buff : bytes) (s s' : OrientSocket) (n : Z) :
  write buff s = Return n s' ->
  0 <= n <= Z.of_nat (length buff)
  /\ sock_out (_socket s') = sock_out (_socket s) ++ take (Z.to_nat n) buff
  /\ (exists ev, sock_sends (_socket s) = ev :: sock_sends (_socket s'))
  /\ s' = set_socket (_socket s') s.
Proof.
  unfold write, socket_send.
  destruct (sock_closed (_socket s)); [done|].
  destruct (sock_sends (_socket s)) as [|[k|msg] rest] eqn:Hsends; try done.
  intros [= <- <-]. simpl.
  rewrite length_take. split; [lia|].
  split; [|split; [by eexists|done]].
  f_equal. rewrite Nat2Z.id.
  destruct (Nat.le_ge_cases k (length buff)) as [Hle|Hge].
  - by rewrite Nat.min_l.
  - rewrite Nat.min_r by done. by rewrite !take_ge.
Qed.

Lemma write_is_one_send_witness :
  let sk := mk_socket false (Some 30) [] [] [SendAccepts 2; SendAccepts 5] [] in
  let s := set_socket sk (__init__ PyNone "localhost" 2424) in
  let s' := set_socket (mk_socket false (Some 30) [] [] [SendAccepts 5]
                          [Byte.x01; Byte.x02]) s in
  let buff := [Byte.x01; Byte.x02; Byte.x03] in
  0 <= 2 <= Z.of_nat (length buff)
  /\ sock_out (_socket s') = sock_out (_socket s) ++ take (Z.to_nat 2) buff
  /\ (exists ev, sock_sends (_socket s) = ev :: sock_sends (_socket s'))
  /\ s' = set_socket (_socket s') s.
Proof.
  intros sk s s' buff.
  apply (write_is_one_send buff s s' 2).
  reflexivity.
Defined.

(** X13. [get_connection] connects only an object that is not connected:
    once it has returned, the object is connected and every further call
    returns the same OS socket and leaves the object alone, whatever peer
    is listening. *)
Theorem get_connection_reuses_the_socket
    (SUPPORTED_PROTOCOL : Z) (p : peer) (s s' : OrientSocket) (sk : socket) :
  get_connection SUPPORTED_PROTOCOL p s = Return sk s' ->
  connected s' = true
  /\ sk = _socket s'
  /\ forall p' : peer, get_connection SUPPORTED_PROTOCOL p' s' = Return sk s'.
Proof.
  intros Hget.
  assert (Hconn : connected s' = true /\ sk = _socket s').
  { unfold get_connection in Hget.
    destruct (connected s) eqn:Hcs; simpl in Hget.
    - by injection Hget as <- <-.
    - destruct (connect SUPPORTED_PROTOCOL p s) as [[] s1|e s1|] eqn:Hconnect;
        [|done|done].
      injection Hget as <- <-. split; [|done].
      unfold connect in Hconnect.
      destruct (socket_connect _ _) as [[] sk1|e sk1|]; [| |done].
      + destruct (socket_recv _ _) as [v sk2|e sk2|]; [| |done].
        * destruct v as [|b0 [|b1 [|b2 more]]]; try done.
          destruct (_ <? _); [done|]. by injection Hconnect as <-.
        * unfold connect_except in Hconnect. by destruct e.
      + unfold connect_except in Hconnect. by destruct e. }
  destruct Hconn as [Hc ->]. repeat split; [done|].
  intros p'. unfold get_connection. by rewrite Hc.
Qed.

Lemma get_connection_reuses_the_socket_witness :
  let p := mk_peer None [] [Data [Byte.x00; Byte.x27]] [] in
  let s := __init__ PyNone "localhost" 2424 in
  let sk := mk_socket false (Some 30) [] [] [] [] in
  let s' := set_connected true (set_protocol 39 (set_socket sk s)) in
  connected s' = true
  /\ sk = _socket s'
  /\ forall p' : peer, get_connection 39 p' s' = Return sk s'.
Proof.
  intros p s sk s'.
  apply (get_connection_reuses_the_socket 39 p s s' sk).
  vm_compute. reflexivity.
Defined.

(** * Further properties of the facade *)

(** ** Names given to [__getattr__] *)

Lemma ascii_lower_idempotent (c : Ascii.ascii) :
  OrientDB.ascii_lower (OrientDB.ascii_lower c) = OrientDB.ascii_lower c.
Proof. by destruct c as [[] [] [] [] [] [] [] []]. Qed.

Lemma ascii_upper_lower (c : Ascii.ascii) :
  OrientDB.ascii_upper (OrientDB.ascii_lower c) = OrientDB.ascii_upper c.
Proof. by destruct c as [[] [] [] [] [] [] [] []]. Qed.

Lemma ascii_lower_underscore (c : Ascii.ascii) :
  Ascii.eqb (OrientDB.ascii_lower c) OrientDB.underscore
  = Ascii.eqb c OrientDB.underscore.
Proof. by destruct c as [[] [] [] [] [] [] [] []]. Qed.

Lemma lower_idempotent (s : string) :
  OrientDB.lower (OrientDB.lower s) = OrientDB.lower s.
Proof.
  induction s as [|c s IH]; [done|].
  simpl. by rewrite ascii_lower_idempotent, IH.
Qed.

Lemma capitalize_lower (s : string) :
  OrientDB.capitalize (OrientDB.lower s) = OrientDB.capitalize s.
Proof.
  destruct s as [|c s]; [done|].
  simpl. by rewrite ascii_upper_lower, lower_idempotent.
Qed.

Lemma split_lower (s : string) :
  OrientDB.split OrientDB.underscore (OrientDB.lower s)
  = map OrientDB.lower (OrientDB.split OrientDB.underscore s).
Proof.
  induction s as [|c s IH]; [done|].
  simpl. rewrite ascii_lower_underscore, IH.
  destruct (Ascii.eqb c OrientDB.underscore); [done|].
  by destruct (OrientDB.split OrientDB.underscore s).
Qed.

Lemma _names_lower (s : string) :
  OrientDB._names (OrientDB.lower s) = OrientDB._names s.
Proof.
  unfold OrientDB._names. rewrite split_lower, map_map.
  f_equal. apply map_ext. intros piece. apply capitalize_lower.
Qed.

Lemma split_nonempty (sep : Ascii.ascii) (s : string) :
  OrientDB.split sep s <> [].
Proof.
  destruct s as [|c s]; [done|]. simpl.
  destruct (Ascii.eqb c sep); [done|].
  by destruct (OrientDB.split sep s).
Qed.

Lemma split_app (a b : string) :
  OrientDB.split OrientDB.underscore
    (a +:+ String OrientDB.underscore b)
  = OrientDB.split OrientDB.underscore a
      ++ OrientDB.split OrientDB.underscore b.
Proof.
  induction a as [|c a IH]; simpl.
  - done.
  - rewrite IH. destruct (Ascii.eqb c OrientDB.underscore); [done|].
    pose proof (split_nonempty OrientDB.underscore a) as Hne.
    by destruct (OrientDB.split OrientDB.underscore a).
Qed.

Lemma string_app_nil_r (s : string) : s +:+ "" = s.
Proof.
  induction s as [|c s IH]; [done|].
  change (String c s +:+ "") with (String c (s +:+ "")). by rewrite IH.
Qed.

Lemma string_app_assoc (s1 s2 s3 : string) :
  (s1 +:+ s2) +:+ s3 = s1 +:+ (s2 +:+ s3).
Proof.
  induction s1 as [|c s1 IH]; [done|].
  change (String c ((s1 +:+ s2) +:+ s3) = String c (s1 +:+ (s2 +:+ s3))).
  by rewrite IH.
Qed.

Lemma concat_empty_cons (x : string) (l : list string) :
  String.concat "" (x :: l) = x +:+ String.concat "" l.
Proof. destruct l; [symmetry; apply string_app_nil_r|done]. Qed.

Lemma concat_empty_app (l1 l2 : list string) :
  String.concat "" (l1 ++ l2) = String.concat "" l1 +:+ String.concat "" l2.
Proof.
  induction l1 as [|x l1 IH]; [done|].
  change ((x :: l1) ++ l2) with (x :: (l1 ++ l2)).
  by rewrite !concat_empty_cons, IH, string_app_assoc.
Qed.

(** X14. On attribute names made of ASCII characters, the name that
    [__getattr__] resolves does not depend on the case of the letters: two
    such attributes that are equal once their letters [A-Z] are put in lower
    case give the same message name. *)
Theorem _names_ignores_case (item1 item2 : string) :
  OrientDB.ascii_only item1 ->
  OrientDB.ascii_only item2 ->
  OrientDB.lower item1 = OrientDB.lower item2 ->
  OrientDB._names item1 = OrientDB._names item2.
Proof.
  intros _ _ Hlower.
  by rewrite <- (_names_lower item1), <- (_names_lower item2), Hlower.
Qed.

Lemma _names_ignores_case_witness :
  OrientDB._names "DB_open" = OrientDB._names "db_OPEN".
Proof.
  apply (_names_ignores_case "DB_open" "db_OPEN").
  - cbn [OrientDB.ascii_only]. repeat split; apply Nat.ltb_lt; reflexivity.
  - cbn [OrientDB.ascii_only]. repeat split; apply Nat.ltb_lt; reflexivity.
  - reflexivity.
Defined.

(** X15. Underscores only separate the words of an attribute: the name
    resolved for [a + '_' + b] is the name resolved for [a] followed by the
    one resolved for [b], so that a leading, a trailing or a doubled
    underscore changes nothing. *)
Theorem _names_of_joined_words (a b : string) :
  OrientDB._names (a +:+ String OrientDB.underscore b)
  = OrientDB._names a +:+ OrientDB._names b.
Proof.
  unfold OrientDB._names.
  by rewrite split_app, map_app, concat_empty_app.
Qed.

(** ** Resolution and errors *)

Section FacadeErrors.

Context `{MessageCapability}.
Variables QUERY_ASYNC QUERY_CMD QUERY_GREMLIN QUERY_SYNC QUERY_SCRIPT : pyval.
Variables SERIALIZATION_DOCUMENT2CSV DB_TYPE_DOCUMENT STORAGE_TYPE_PLOCAL : pyval.

Local Abbreviation invoke :=
  (OrientDB.invoke QUERY_ASYNC QUERY_CMD QUERY_GREMLIN QUERY_SYNC QUERY_SCRIPT
     SERIALIZATION_DOCUMENT2CSV DB_TYPE_DOCUMENT STORAGE_TYPE_PLOCAL).

(** X17. An attribute whose name resolves to no registered message is
    refused when it is read, with [PyOrientBadMethodCallException]: no
    function is handed out, and nothing is prepared or sent. *)
Theorem getattr_unknown_name (item : string) (o : OrientDB) :
  OrientDB._Messages !! (OrientDB._names item +:+ "Message") = None ->
  exists msg : string,
    OrientDB.__getattr__ item o = Raise (PyOrientBadMethodCallException msg) o.
Proof.
  intros Hlookup.
  unfold OrientDB.__getattr__, bind, OrientDB.get_message.
  rewrite Hlookup. by eexists.
Qed.

(** X18. [__getattr__] resolves the message when the attribute is read,
    not when the function it returns is called: the function runs
    [prepare], [send] and [fetch_response] on the message bound with the
    token in force at that moment, also when it is called on a facade whose
    tokens have changed since, and it passes its arguments on as they
    are. *)
Theorem getattr_binds_at_access
    (item module : string) (o : OrientDB) :
  OrientDB._Messages !! (OrientDB._names item +:+ "Message") = Some module ->
  exists wrapper : list pyval -> M pyval,
    OrientDB.__getattr__ item o = Return wrapper o
    /\ forall (args : list pyval) (o2 : OrientDB),
         wrapper args o2
         = match prepare (mk_Message module (OrientDB._names item +:+ "Message")
                            (OrientDB.session_token o))
                   args (_connection o2) with
           | Return m1 c1 =>
               match send m1 c1 with
               | Return m2 c2 =>
                   match fetch_response m2 c2 with
                   | Return v c3 => Return v (mk_OrientDB c3 (_auth_token o2))
                   | Raise e c3 => Raise e (mk_OrientDB c3 (_auth_token o2))
                   | Hang => Hang
                   end
               | Raise e c2 => Raise e (mk_OrientDB c2 (_auth_token o2))
               | Hang => Hang
               end
           | Raise e c1 => Raise e (mk_OrientDB c1 (_auth_token o2))
           | Hang => Hang
           end.
Proof.
  intros Hlookup.
  unfold OrientDB.__getattr__, bind at 1.
  rewrite (get_message_registered _ _ _ Hlookup).
  eexists. split; [reflexivity|].
  intros args o2. unfold bind, on_connection, OrientDB.the_message, ret. simpl.
  destruct (prepare _ args (_connection o2)) as [m1 c1|e c1|]; [|done|done].
  simpl. destruct (send m1 c1) as [m2 c2|e c2|]; [|done|done].
  simpl. by destruct (fetch_response m2 c2).
Qed.

Local Abbreviation message_args :=
  (OrientDB.message_args QUERY_ASYNC QUERY_CMD QUERY_GREMLIN QUERY_SYNC
     QUERY_SCRIPT SERIALIZATION_DOCUMENT2CSV DB_TYPE_DOCUMENT
     STORAGE_TYPE_PLOCAL).

(** Every operation but [tx_commit] starts with the run of its message. *)
Lemma invoke_starts_with_the_run (c : OrientDB.facade_call) :
  OrientDB.is_tx_commit c = false ->
  exists k : pyval -> M retval,
    invoke c
    = bind (OrientDB.prepare_send_fetch (OrientDB.message_class c)
              (message_args c)) k.
Proof. destruct c; try done; intros _; by eexists. Qed.

(** X19. When [prepare], [send] or [fetch_response] raises on the message
    that an operation of the facade (other than [tx_commit]) has resolved,
    the operation raises that same exception: the connection is as the
    failing call left it, the default token of the facade is unchanged, the
    calls that come after the failing one are not made and nothing is
    retried. *)
Theorem facade_call_error (c : OrientDB.facade_call) (o : OrientDB)
    (m0 : Message) :
  OrientDB.is_tx_commit c = false ->
  OrientDB.get_message (Some (OrientDB.message_class c)) o = Return (Some m0) o ->
  (forall (e : exn) (c1 : OrientSocket),
     prepare m0 (message_args c) (_connection o) = Raise e c1 ->
     invoke c o = Raise e (mk_OrientDB c1 (_auth_token o)))
  /\ (forall (m1 : Message) (c1 : OrientSocket) (e : exn) (c2 : OrientSocket),
        prepare m0 (message_args c) (_connection o) = Return m1 c1 ->
        send m1 c1 = Raise e c2 ->
        invoke c o = Raise e (mk_OrientDB c2 (_auth_token o)))
  /\ (forall (m1 : Message) (c1 : OrientSocket) (m2 : Message)
             (c2 : OrientSocket) (e : exn) (c3 : OrientSocket),
        prepare m0 (message_args c) (_connection o) = Return m1 c1 ->
        send m1 c1 = Return m2 c2 ->
        fetch_response m2 c2 = Raise e c3 ->
        invoke c o = Raise e (mk_OrientDB c3 (_auth_token o))).
Proof.
  intros Hc Hget.
  destruct (invoke_starts_with_the_run c Hc) as [k ->].
  unfold bind at 1, OrientDB.prepare_send_fetch, bind. rewrite Hget. simpl.
  unfold on_connection.
  split; [|split].
  - intros e c1 ->. reflexivity.
  - intros m1 c1 e c2 -> Hsend. simpl. by rewrite Hsend.
  - intros m1 c1 m2 c2 e c3 -> Hsend Hfetch. simpl. rewrite Hsend. simpl.
    by rewrite Hfetch.
Qed.

End FacadeErrors.

Lemma getattr_unknown_name_witness :
  let cap := Build_MessageCapability
               (fun m _ c => Return m c)
               (fun m c => Return m c)
               (fun _ c => Return PyNone c) in
  let o := OrientDB.__init__ PyNone (inl "localhost") 2424 in
  exists msg : string,
    @OrientDB.__getattr__ cap "db_rename" o
    = Raise (PyOrientBadMethodCallException msg) o.
Proof.
  intros cap o.
  apply (@getattr_unknown_name cap "db_rename" o).
  vm_compute. reflexivity.
Defined.

Lemma getattr_binds_at_access_witness :
  let cap := Build_MessageCapability
               (fun m _ c => Return m c)
               (fun m c => Return m c)
               (fun m c => Return (PyBool (bool_decide (msg_token m = None))) c) in
  let o := OrientDB.__init__ PyNone (inl "localhost") 2424 in
  exists wrapper : list pyval -> M pyval,
    @OrientDB.__getattr__ cap "DB_size" o = Return wrapper o
    /\ forall (args : list pyval) (o2 : OrientDB),
         wrapper args o2
         = Return (PyBool true) (mk_OrientDB (_connection o2) (_auth_token o2)).
Proof.
  intros cap o.
  apply (@getattr_binds_at_access cap "DB_size" "pyorient.messages.database" o).
  vm_compute. reflexivity.
Defined.

Lemma facade_call_error_witness :
  let cap := Build_MessageCapability
               (fun m _ c => Return m c)
               (fun _ c => Raise (socket_error "Broken pipe") (set_connected false c))
               (fun _ c => Return PyNone c) in
  let o := OrientDB.__init__ PyNone (inl "localhost") 2424 in
  @OrientDB.invoke cap
    (PyStr "async") (PyStr "cmd") (PyStr "gremlin") (PyStr "sync")
    (PyStr "script") (PyStr "csv") (PyStr "document") (PyStr "plocal")
    (OrientDB.DbSize []) o
  = Raise (socket_error "Broken pipe")
      (mk_OrientDB (set_connected false (_connection o)) (_auth_token o)).
Proof.
  intros cap o.
  apply (proj1 (proj2
           (@facade_call_error cap
              (PyStr "async") (PyStr "cmd") (PyStr "gremlin") (PyStr "sync")
              (PyStr "script") (PyStr "csv") (PyStr "document") (PyStr "plocal")
              (OrientDB.DbSize []) o
              (mk_Message "pyorient.messages.database" "DbSizeMessage" None)
              eq_refl eq_refl))
           (mk_Message "pyorient.messages.database" "DbSizeMessage" None)
           (_connection o) (socket_error "Broken pipe")
           (set_connected false (_connection o)));
    reflexivity.
Defined.

(** ** Instances of the error paths of the transport *)

Lemma read_zero_byte_receive_witness :
  let sk := mk_socket false (Some 30) [SelectReturns true false]
              [Data [Byte.x01; Byte.x02]; Data []] [] [] in
  let s := set_socket sk (__init__ PyNone "localhost" 2424) in
  exists s' : OrientSocket,
    read 10 s
    = Raise (PyOrientConnectionException "Server seems to have went down") s'
    /\ connected s' = connected s
    /\ sock_closed (_socket s') = true.
Proof.
  intros sk s.
  apply (read_zero_byte_receive 10 s 0 false [] [[Byte.x01; Byte.x02]] []).
  - reflexivity.
  - reflexivity.
  - reflexivity.
  - repeat constructor. discriminate.
  - reflexivity.
Defined.

Lemma connect_socket_error_witness :
  let p := mk_peer (Some "Connection refused") [] [] [] in
  let s := set_connected true (__init__ PyNone "localhost" 2424) in
  exists (msg : string) (s' : OrientSocket),
    connect 39 p s = Raise (PyOrientConnectionException msg) s'
    /\ connected s' = false.
Proof.
  intros p s.
  apply (connect_socket_error 39 p s).
  left. by eexists.
Defined.

Lemma get_message_unknown_witness :
  let o := OrientDB.__init__ PyNone (inl "localhost") 2424 in
  exists msg : string,
    OrientDB.get_message (Some "DbRenameMessage") o
    = Raise (PyOrientBadMethodCallException msg) o.
Proof.
  intros o.
  apply (get_message_unknown "DbRenameMessage" o).
  vm_compute. reflexivity.
Defined.
